(** * The SOLID example scripts, embedded in Rocq

    The repository is five independent Python scripts, one per SOLID
    principle.  Each script is embedded in a module of its own
    ([LSP], [DIP], [SRP], [OCP], [ISP]).  The module [Py] holds the
    part of the Python run-time the scripts rely on: exceptions,
    [print], [try]/[except]; the module [PyClass] holds class creation
    and instantiation under [ABCMeta], which the ISP script relies on.

    Conventions of the embedding:
    - a method is a function from the receiver and the arguments to a
      computation in the monad [Py.M]; the monad threads the mutable
      state (console output, object fields, heap) and stops at the first
      raised exception, keeping every effect performed before it;
    - [str] is [string]; numbers ([int], [float]) are exact rationals
      [Q], compared with [==] as Python compares numbers by value;
    - a [dict] is a [gmap]. *)

From Stdlib Require Import QArith Lqa.
From stdpp Require Import gmap strings list fin_maps pretty.

(** ** Python run-time *)

Module Py.

Inductive exn_class :=
| TypeError
| ValueError
| KeyError
| AttributeError
| NotImplementedError
| SystemError.

#[global] Instance exn_class_eq_dec : EqDecision exn_class.
Proof. solve_decision. Defined.

(** An exception instance: its class and the message it was built with. *)
Record exn := Exception { exn_type : exn_class; exn_msg : string }.

Inductive outcome (A : Type) :=
| Return (a : A)
| Raise (e : exn).
Arguments Return {A} a.
Arguments Raise {A} e.

(** The state [S] of a script always contains the console. *)
Class Console (S : Type) := write_line : string → S → S.

(** A script whose only state is the console. *)
#[global] Instance console_stdout : Console (list string) :=
  λ line out, out ++ [line].

Definition M (S A : Type) : Type := S → outcome A * S.

Definition ret {S A} (a : A) : M S A := λ s, (Return a, s).

Definition bind {S A B} (c : M S A) (k : A → M S B) : M S B :=
  λ s, match c s with
       | (Return a, s') => k a s'
       | (Raise e, s') => (Raise e, s')
       end.

#[global] Instance M_ret {S} : MRet (M S) := @ret S.
#[global] Instance M_bind {S} : MBind (M S) := λ A B k c, bind c k.

Definition raise {S A} (e : exn) : M S A := λ s, (Raise e, s).

Definition modify {S} (f : S → S) : M S () := λ s, (Return (), f s).

(** [print(line)] *)
Definition print {S} `{Console S} (line : string) : M S () :=
  λ s, (Return (), write_line line s).

(** [try: body  except cls as e: handler e]: only exceptions of class
    [cls] are handled; the state reached when the exception was raised
    is the state the handler starts from. *)
Definition try_except {S A} (body : M S A) (cls : exn_class)
    (handler : exn → M S A) : M S A :=
  λ s, match body s with
       | (Return a, s') => (Return a, s')
       | (Raise e, s') =>
           if decide (exn_type e = cls) then handler e s' else (Raise e, s')
       end.

Definition returns {S A} (c : M S A) (s : S) (a : A) : Prop :=
  (c s).1 = Return a.

Definition raises {S A} (c : M S A) (s : S) (cls : exn_class) : Prop :=
  ∃ msg, (c s).1 = Raise (Exception cls msg).

(** The escape [\n] of a string literal. *)
Definition nl : string := String (Ascii.ascii_of_nat 10) EmptyString.

(** Values whose type the code does not fix (the annotation [Any], the
    values of a result dictionary): [None], an [int] or a [str].  On
    these, equality as dictionary keys is structural. *)
Inductive value :=
| VNone
| VInt (z : Z)
| VStr (s : string).

Inductive type_name := NoneType | int | str_.

(** [type(v)] *)
Definition type (v : value) : type_name :=
  match v with
  | VNone => NoneType
  | VInt _ => int
  | VStr _ => str_
  end.

(** [str(v)], as used by an f-string. *)
Definition str (v : value) : string :=
  match v with
  | VNone => "None"
  | VInt z => pretty z
  | VStr s => s
  end.

Definition value_to_sum (v : value) : () + (Z + string) :=
  match v with
  | VNone => inl ()
  | VInt z => inr (inl z)
  | VStr s => inr (inr s)
  end.

Definition value_of_sum (x : () + (Z + string)) : value :=
  match x with
  | inl _ => VNone
  | inr (inl z) => VInt z
  | inr (inr s) => VStr s
  end.

#[global] Instance value_eq_dec : EqDecision value.
Proof. solve_decision. Defined.

#[global] Instance value_countable : Countable value.
Proof.
  apply (inj_countable' value_to_sum value_of_sum).
  intros []; reflexivity.
Defined.

(** [d.get(k, default)] *)
Definition dict_get {K V} `{Countable K} (d : gmap K V) (k : K) (default : V) : V :=
  match d !! k with
  | Some v => v
  | None => default
  end.

(** [d[k]] *)
Definition dict_getitem {S V} (d : gmap string V) (k : string) : M S V :=
  match d !! k with
  | Some v => mret v
  | None => raise (Exception KeyError k)
  end.

(** [sub in s] on strings: [sub] occurs in [s]. *)
Fixpoint str_in (sub s : string) : bool :=
  if String.prefix sub s then true
  else match s with
       | EmptyString => false
       | String _ s' => str_in sub s'
       end.

End Py.

(** ** lsp_example.py *)

Module LSP.
Import Py.

(** [BadBird.__init__] stores [name]; the subclasses pass a fixed one. *)
Record BadBird := { name : string }.

Definition BadBird_eat (self : BadBird) : M (list string) () :=
  print (name self +:+ " está comiendo").

Definition BadEagle : BadBird := {| name := "Águila" |}.

Definition BadEagle_fly (self : BadBird) : M (list string) () :=
  print (name self +:+ " vuela majestuosamente").

Definition BadPenguin : BadBird := {| name := "Pingüino" |}.

Definition BadPenguin_fly (self : BadBird) : M (list string) () :=
  raise (Exception NotImplementedError "Los pingüinos no pueden volar!").

Record BadVehicle := { brand : string }.

Definition BadVehicle_start_engine (self : BadVehicle) : M (list string) () :=
  print (brand self +:+ " motor encendido").

Definition BadVehicle_accelerate (self : BadVehicle) : M (list string) () :=
  print (brand self +:+ " acelerando").

(** [BadBicycle(brand)] only forwards to [BadVehicle.__init__]. *)
Definition BadBicycle (brand : string) : BadVehicle := {| brand := brand |}.

Definition BadBicycle_start_engine (self : BadVehicle) : M (list string) () :=
  raise (Exception NotImplementedError "Las bicicletas no tienen motor!").

(** Rectangle and its subclass Square share the fields set by
    [Rectangle.__init__]; the class of the instance selects the setters. *)
Inductive klass := Rectangle | Square.

Record instance := {
  class_ : klass;
  color : string;
  _width : Q;
  _height : Q
}.

Definition Rectangle_init (k : klass) (color : string) (width height : Q) : instance :=
  {| class_ := k; color := color; _width := width; _height := height |}.

Definition new_Rectangle (color : string) (width height : Q) : instance :=
  Rectangle_init Rectangle color width height.

(** [Square.__init__]: [super().__init__(color, side, side)] *)
Definition new_Square (color : string) (side : Q) : instance :=
  Rectangle_init Square color side side.

Definition calculate_area (self : instance) : Q :=
  (_width self * _height self)%Q.

Definition calculate_perimeter (self : instance) : Q :=
  (2 * (_width self + _height self))%Q.

Definition get_width (self : instance) : Q := _width self.
Definition get_height (self : instance) : Q := _height self.
Definition get_color (self : instance) : string := color self.

Definition assign_width (width : Q) (self : instance) : instance :=
  {| class_ := class_ self; color := color self;
     _width := width; _height := _height self |}.

Definition assign_height (height : Q) (self : instance) : instance :=
  {| class_ := class_ self; color := color self;
     _width := _width self; _height := height |}.

Definition Rectangle_set_width (self : instance) (width : Q) : instance :=
  assign_width width self.

Definition Rectangle_set_height (self : instance) (height : Q) : instance :=
  assign_height height self.

Definition Square_set_width (self : instance) (width : Q) : instance :=
  assign_height width (assign_width width self).

Definition Square_set_height (self : instance) (height : Q) : instance :=
  assign_width height (assign_height height self).

(** Method resolution: the override of the instance's class. *)
Definition set_width (self : instance) (width : Q) : instance :=
  match class_ self with
  | Rectangle => Rectangle_set_width self width
  | Square => Square_set_width self width
  end.

Definition set_height (self : instance) (height : Q) : instance :=
  match class_ self with
  | Rectangle => Rectangle_set_height self height
  | Square => Square_set_height self height
  end.

(** A call of one of the two setters, and a sequence of such calls
    applied to an instance in program order. *)
Inductive setter_call :=
| call_set_width (w : Q)
| call_set_height (h : Q).

Definition do_call (self : instance) (c : setter_call) : instance :=
  match c with
  | call_set_width w => set_width self w
  | call_set_height h => set_height self h
  end.

Definition do_calls (self : instance) (cs : list setter_call) : instance :=
  foldl do_call self cs.

Definition call_arg (c : setter_call) : Q :=
  match c with call_set_width w => w | call_set_height h => h end.

(** The argument of the most recent setter, or of the constructor. *)
Definition current_side (side : Q) (cs : list setter_call) : Q :=
  foldl (λ _ c, call_arg c) side cs.

End LSP.

(** ** dip_example.py *)

Module DIP.
Import Py.

(** *** Message senders

    The four concrete [MessageSender] classes of the script, with the
    attribute each constructor stores. *)
Inductive MessageSender :=
| EmailService (smtp_server : string)
| SMSService (provider : string)
| WhatsAppService
| PushNotificationService (platform : string).

Section Notifications.
Context {S : Type} `{Console S}.

Definition send_message (self : MessageSender) (message recipient : string)
    : M S bool :=
  match self with
  | EmailService smtp_server =>
      print ("[Email via " +:+ smtp_server +:+ "] To: " +:+ recipient) ;;
      print ("Message: " +:+ message) ;;
      mret true
  | SMSService provider =>
      print ("[SMS via " +:+ provider +:+ "] To: " +:+ recipient) ;;
      print ("Message: " +:+ message) ;;
      mret true
  | WhatsAppService =>
      print ("[WhatsApp] To: " +:+ recipient) ;;
      print ("Message: " +:+ message) ;;
      mret true
  | PushNotificationService platform =>
      print ("[Push " +:+ platform +:+ "] To device: " +:+ recipient) ;;
      print ("Notification: " +:+ message) ;;
      mret true
  end.

Definition get_sender_type (self : MessageSender) : string :=
  match self with
  | EmailService _ => "Email"
  | SMSService _ => "SMS"
  | WhatsAppService => "WhatsApp"
  | PushNotificationService _ => "Push Notification"
  end.

(** [NotificationService] holds the injected sender. *)
Record NotificationService := { message_sender : MessageSender }.

Definition send_notification (self : NotificationService)
    (message recipient : string) : M S bool :=
  print ("Preparando notificación via "
         +:+ get_sender_type (message_sender self)) ;;
  success ← send_message (message_sender self) message recipient ;
  (if success : bool
   then print ("✅ Notificación enviada exitosamente" +:+ nl)
   else print ("❌ Error al enviar notificación" +:+ nl)) ;;
  mret success.
End Notifications.

(** *** Repositories

    In the annotation [Dict[str, Any]], keys are strings and [Any] is
    [Py.value]. *)

(** Objects live in a heap and are passed by reference.  Three kinds
    of objects matter here: the data dictionaries handed to [save], the
    dictionaries each repository creates in [__init__] to hold what it
    stores, and the repository instances themselves. *)
Definition addr := positive.

Inductive DataRepository :=
| DatabaseRepository (connection_string : string) (data_store : addr)
| FileRepository (base_path : string) (files : addr)
| CloudRepository (cloud_provider : string) (cloud_storage : addr).

Record world := World {
  stdout : list string;
  dicts : gmap addr (gmap string value);
  stores : gmap addr (gmap value addr);
  repos : gmap addr DataRepository
}.

Definition init : world :=
  {| stdout := []; dicts := ∅; stores := ∅; repos := ∅ |}.

(** What [load] hands back: a reference to a dictionary that is in the
    heap, or a dictionary literal evaluated by the call (a new object
    nothing else refers to). *)
Inductive dict_ref :=
| Ref (a : addr)
| New (content : gmap string value).

Definition set_dicts (f : gmap addr (gmap string value) → gmap addr (gmap string value))
    (w : world) : world :=
  {| stdout := stdout w; dicts := f (dicts w);
     stores := stores w; repos := repos w |}.

Definition set_stores (f : gmap addr (gmap value addr) → gmap addr (gmap value addr))
    (w : world) : world :=
  {| stdout := stdout w; dicts := dicts w;
     stores := f (stores w); repos := repos w |}.

Definition set_repos (f : gmap addr DataRepository → gmap addr DataRepository)
    (w : world) : world :=
  {| stdout := stdout w; dicts := dicts w;
     stores := stores w; repos := f (repos w) |}.

(** Following a reference the heap does not hold cannot happen in
    Python; the embedding reports it as [SystemError]. *)
Definition deref {A} (heap : world → gmap addr A) (a : addr) : M world A :=
  λ w, match heap w !! a with
       | Some x => (Return x, w)
       | None => (Raise (Exception SystemError "dangling reference"), w)
       end.

(** [{}] evaluated in [__init__] *)
Definition new_store : M world addr :=
  λ w, let a := fresh (dom (stores w)) in
       (Return a, set_stores (insert a ∅) w).

Definition new_repo (r : DataRepository) : M world addr :=
  λ w, let a := fresh (dom (repos w)) in
       (Return a, set_repos (insert a r) w).

(** A dictionary literal evaluated by client code. *)
Definition new_dict (content : gmap string value) : M world addr :=
  λ w, let a := fresh (dom (dicts w)) in
       (Return a, set_dicts (insert a content) w).

(** [d[k] = v] on a data dictionary, by client code. *)
Definition dict_setitem (d : addr) (k : string) (v : value) : M world () :=
  content ← deref dicts d ;
  modify (set_dicts (insert d (<[k:=v]> content))).

(** [store[k] = data] *)
Definition store_setitem (store : addr) (k : value) (data : addr) : M world () :=
  s ← deref stores store ;
  modify (set_stores (insert store (<[k:=data]> s))).

(** [del store[k]] *)
Definition store_delitem (store : addr) (k : value) : M world () :=
  s ← deref stores store ;
  modify (set_stores (insert store (delete k s))).

#[global] Instance console_world : Console world :=
  λ line w, {| stdout := stdout w ++ [line]; dicts := dicts w;
               stores := stores w; repos := repos w |}.

Section Repositories.
(** [repr] of a data dictionary, as an f-string prints it. *)
Context (repr : gmap string value → string).

(** [__init__] of the three classes: store the argument, create the
    empty dictionary, and hand back the new instance. *)
Definition new_DatabaseRepository (connection_string : string) : M world addr :=
  data_store ← new_store ;
  new_repo (DatabaseRepository connection_string data_store).

Definition new_FileRepository (base_path : string) : M world addr :=
  files ← new_store ;
  new_repo (FileRepository base_path files).

Definition new_CloudRepository (cloud_provider : string) : M world addr :=
  cloud_storage ← new_store ;
  new_repo (CloudRepository cloud_provider cloud_storage).

Definition filename (base_path : string) (id : value) : value :=
  VStr (base_path +:+ "/" +:+ str id +:+ ".json").

Definition default_record (id : value) (source : string) : gmap string value :=
  <["id" := id]> (<["data" := VStr source]> ∅).

Definition store_get (store : addr) (k : value) (default : gmap string value)
    : M world dict_ref :=
  s ← deref stores store ;
  mret (match s !! k with
        | Some a => Ref a
        | None => New default
        end).

(** [if k in store: del store[k]] *)
Definition store_discard (store : addr) (k : value) : M world () :=
  s ← deref stores store ;
  match s !! k with
  | Some _ => store_delitem store k
  | None => mret ()
  end.

Definition save (self : addr) (data : addr) : M world bool :=
  r ← deref repos self ;
  content ← deref dicts data ;
  let data_id := dict_get content "id" (VStr "unknown") in
  match r with
  | DatabaseRepository connection_string data_store =>
      store_setitem data_store data_id data ;;
      print ("[Database " +:+ connection_string +:+ "] Guardando: "
             +:+ repr content) ;;
      mret true
  | FileRepository base_path files =>
      store_setitem files (filename base_path data_id) data ;;
      print ("[File System " +:+ base_path +:+ "] Guardando: "
             +:+ repr content) ;;
      mret true
  | CloudRepository cloud_provider cloud_storage =>
      store_setitem cloud_storage data_id data ;;
      print ("[Cloud " +:+ cloud_provider +:+ "] Subiendo: "
             +:+ repr content) ;;
      mret true
  end.

Definition load (self : addr) (id : value) : M world dict_ref :=
  r ← deref repos self ;
  match r with
  | DatabaseRepository _ data_store =>
      print ("[Database] Cargando ID: " +:+ str id) ;;
      store_get data_store id (default_record id "Data from database")
  | FileRepository base_path files =>
      print ("[File System] Cargando archivo: "
             +:+ str (filename base_path id)) ;;
      store_get files (filename base_path id)
        (default_record id "Data from file")
  | CloudRepository _ cloud_storage =>
      print ("[Cloud] Descargando ID: " +:+ str id) ;;
      store_get cloud_storage id (default_record id "Data from cloud")
  end.

Definition delete_ (self : addr) (id : value) : M world bool :=
  r ← deref repos self ;
  match r with
  | DatabaseRepository _ data_store =>
      print ("[Database] Eliminando ID: " +:+ str id) ;;
      store_discard data_store id ;;
      mret true
  | FileRepository base_path files =>
      print ("[File System] Eliminando archivo: "
             +:+ str (filename base_path id)) ;;
      store_discard files (filename base_path id) ;;
      mret true
  | CloudRepository _ cloud_storage =>
      print ("[Cloud] Eliminando ID: " +:+ str id) ;;
      store_discard cloud_storage id ;;
      mret true
  end.

Definition get_repository_type (r : DataRepository) : string :=
  match r with
  | DatabaseRepository _ _ => "Database"
  | FileRepository _ _ => "File System"
  | CloudRepository cloud_provider _ => "Cloud (" +:+ cloud_provider +:+ ")"
  end.

(** What a client of the script can do with repositories and data
    dictionaries; a program is a sequence of such actions, started in
    the empty heap. *)
Inductive action :=
| ANewDatabase (connection_string : string)
| ANewFile (base_path : string)
| ANewCloud (cloud_provider : string)
| ANewDict (content : gmap string value)
| ASetItem (d : addr) (k : string) (v : value)
| ASave (r d : addr)
| ALoad (r : addr) (id : value)
| ADelete (r : addr) (id : value).

Definition exec (w : world) (a : action) : world :=
  match a with
  | ANewDatabase cs => (new_DatabaseRepository cs w).2
  | ANewFile bp => (new_FileRepository bp w).2
  | ANewCloud cp => (new_CloudRepository cp w).2
  | ANewDict c => (new_dict c w).2
  | ASetItem d k v => (dict_setitem d k v w).2
  | ASave r d => (save r d w).2
  | ALoad r id => (load r id w).2
  | ADelete r id => (delete_ r id w).2
  end.

Definition run (program : list action) : world := foldl exec init program.

(** A program in the manner of [main]: a database and a file repository,
    the test record, and the record saved in the file repository. *)
Definition two_repositories : list action :=
  [ANewDatabase "jdbc:mysql://localhost:3306/mydb"; ANewFile "/data/files";
   ANewDict (<["id" := VStr "product_001"]> (<["name" := VStr "Laptop"]> ∅));
   ASave 2%positive 1%positive].

(** The store a repository instance writes to. *)
Definition store_of (r : DataRepository) : addr :=
  match r with
  | DatabaseRepository _ data_store => data_store
  | FileRepository _ files => files
  | CloudRepository _ cloud_storage => cloud_storage
  end.

End Repositories.

(** A stand-in for [repr] where a program is run on concrete data. *)
Definition repr_elided : gmap string value → string := λ _, "{...}".

(** The key under which a repository files a record. *)
Definition store_key (r : DataRepository) (id : value) : value :=
  match r with
  | FileRepository base_path _ => filename base_path id
  | _ => id
  end.

(** A computation that creates no repository instance and keeps every
    store in the heap. *)
Definition keeps_instances {A} (c : M world A) : Prop :=
  ∀ w, repos (c w).2 = repos w ∧ dom (stores (c w).2) = dom (stores w).

(** Every repository instance has its store in the heap, and no two
    instances write to the same store. *)
Definition stores_owned (w : world) : Prop :=
  ∀ a r, repos w !! a = Some r → is_Some (stores w !! store_of r).

Definition stores_separate (w : world) : Prop :=
  ∀ a b ra rb,
    repos w !! a = Some ra → repos w !! b = Some rb →
    store_of ra = store_of rb → a = b.

End DIP.

(** ** srp_example.py *)

Module SRP.
Import Py.

Record User := { username : string; email : string; password : string }.

(** The state of a [UserService]: the console and the list held by its
    [UserRepository].  The other collaborators have no fields. *)
Record state := { stdout : list string; users : list User }.

#[global] Instance console_state : Console state :=
  λ line s, {| stdout := stdout s ++ [line]; users := users s |}.

Section Users.
(** [hashlib.md5(b).hexdigest()] composed with [str.encode()]. *)
Context (md5_hexdigest : string → string).

(** [EmailValidator.is_valid] *)
Definition is_valid (email : string) : bool :=
  str_in "@" email && str_in "." email && bool_decide (5 < String.length email).

(** [EmailValidator.validate_format] *)
Definition validate_format (email : string) : M state () :=
  if negb (is_valid email)
  then raise (Exception ValueError ("Email inválido: " +:+ email))
  else mret ().

(** [PasswordEncryptor.encrypt] *)
Definition encrypt (password : string) : string := md5_hexdigest password.

(** [PasswordEncryptor.verify] *)
Definition verify (password encrypted : string) : bool :=
  bool_decide (encrypt password = encrypted).

(** [UserRepository.save] *)
Definition save (user : User) : M state () :=
  modify (λ s, {| stdout := stdout s; users := users s ++ [user] |}) ;;
  print ("✅ Usuario " +:+ username user +:+ " guardado en la base de datos").

(** [UserRepository.find_by_username] *)
Definition find_by_username (s : state) (name : string) : option User :=
  find (λ user, bool_decide (username user = name)) (users s).

(** [EmailService.send_welcome_email] *)
Definition send_welcome_email (user : User) : M state () :=
  print ("📧 Enviando email de bienvenida a " +:+ email user) ;;
  print ("   Asunto: ¡Bienvenido " +:+ username user +:+ "!") ;;
  print "   Mensaje: Gracias por registrarte en nuestro sistema.".

(** [UserService.register_user] *)
Definition register_user (username email password : string)
    : M state (option User) :=
  try_except
    (validate_format email ;;
     let encrypted_password := encrypt password in
     let user := {| username := username; email := email;
                    password := encrypted_password |} in
     save user ;;
     send_welcome_email user ;;
     print ("✅ Usuario " +:+ username +:+ " registrado exitosamente") ;;
     mret (Some user))
    ValueError
    (λ e,
     print ("❌ Error al registrar usuario: " +:+ exn_msg e) ;;
     mret None).

End Users.

End SRP.

(** ** ocp_example.py *)

Module OCP.
Import Py.

(** What the model leaves to the Python run-time: the hash of a string
    (it changes from one interpreter run to the next) and the printing
    of a number, with the format [.2f] and with [str]. *)
Class Builtins := {
  hash : string → Z;
  format_2f : Q → string;
  str_number : Q → string
}.

(** [math.pi]: the double nearest to π, which is this rational. *)
Definition math_pi : Q := 884279719003555 # 281474976710656.

(** *** Shapes

    An abstract base class is a type class, a concrete class a type with
    an instance, an object a value of that type. *)
Class Shape (T : Type) := {
  calculate_area : T → Q;
  get_shape_type : T → string
}.

Inductive GoodRectangle := new_GoodRectangle (width height : Q).

#[global] Instance GoodRectangle_Shape : Shape GoodRectangle := {|
  calculate_area '(new_GoodRectangle width height) := (width * height)%Q;
  get_shape_type _ := "Rectángulo"
|}.

Inductive GoodCircle := new_GoodCircle (radius : Q).

#[global] Instance GoodCircle_Shape : Shape GoodCircle := {|
  calculate_area '(new_GoodCircle radius) := (math_pi * radius ^ 2)%Q;
  get_shape_type _ := "Círculo"
|}.

Inductive Triangle := new_Triangle (base height : Q).

#[global] Instance Triangle_Shape : Shape Triangle := {|
  calculate_area '(new_Triangle base height) := ((base * height) / 2)%Q;
  get_shape_type _ := "Triángulo"
|}.

Inductive Pentagon := new_Pentagon (side apothem : Q).

#[global] Instance Pentagon_Shape : Shape Pentagon := {|
  calculate_area '(new_Pentagon side apothem) :=
    (let perimeter := 5 * side in (perimeter * apothem) / 2)%Q;
  get_shape_type _ := "Pentágono"
|}.

(** An object of some class that implements [Shape], as the elements of
    a list of shapes are. *)
Inductive shape_object :=
| Object {T : Type} `{Shape T} (self : T).

Definition object_area (o : shape_object) : Q :=
  match o with Object self => calculate_area self end.

(** [GoodAreaCalculator.calculate_area] *)
Definition GoodAreaCalculator_calculate_area {T} `{Shape T} (shape : T) : Q :=
  calculate_area shape.

(** [GoodAreaCalculator.print_shape_info] *)
Definition print_shape_info `{Builtins} {T} `{Shape T} (shape : T)
    : M (list string) () :=
  print (get_shape_type shape +:+ " - Área: "
         +:+ format_2f (calculate_area shape)).

(** [GoodAreaCalculator.calculate_total_area]: [sum] starts from 0. *)
Definition calculate_total_area (shapes : list shape_object) : Q :=
  foldl (λ total shape, total + object_area shape)%Q 0%Q shapes.

(** *** Discounts *)
Class DiscountStrategy (T : Type) := {
  apply_discount : T → Q → Q;
  get_discount_type : T → string
}.

Inductive RegularCustomerDiscount := new_RegularCustomerDiscount.

#[global] Instance RegularCustomerDiscount_Strategy
    : DiscountStrategy RegularCustomerDiscount := {|
  apply_discount _ amount := (amount * 0.95)%Q;
  get_discount_type _ := "Cliente Regular (5%)"
|}.

Inductive VIPCustomerDiscount := new_VIPCustomerDiscount.

#[global] Instance VIPCustomerDiscount_Strategy
    : DiscountStrategy VIPCustomerDiscount := {|
  apply_discount _ amount := (amount * 0.85)%Q;
  get_discount_type _ := "Cliente VIP (15%)"
|}.

Inductive StudentDiscount := new_StudentDiscount.

#[global] Instance StudentDiscount_Strategy
    : DiscountStrategy StudentDiscount := {|
  apply_discount _ amount := (amount * 0.80)%Q;
  get_discount_type _ := "Descuento Estudiante (20%)"
|}.

Inductive SeniorDiscount := new_SeniorDiscount.

#[global] Instance SeniorDiscount_Strategy
    : DiscountStrategy SeniorDiscount := {|
  apply_discount _ amount := (amount * 0.75)%Q;
  get_discount_type _ := "Descuento Adulto Mayor (25%)"
|}.

Inductive HolidayDiscount :=
  new_HolidayDiscount (holiday_name : string) (discount_percentage : Q).

(** [HolidayDiscount.apply_discount] *)
Definition HolidayDiscount_apply_discount (self : HolidayDiscount) (amount : Q) : Q :=
  match self with
  | new_HolidayDiscount _ discount_percentage =>
      (let multiplier := 1 - (discount_percentage / 100) in
       amount * multiplier)%Q
  end.

#[global] Instance HolidayDiscount_Strategy `{Builtins}
    : DiscountStrategy HolidayDiscount := {|
  apply_discount := HolidayDiscount_apply_discount;
  get_discount_type '(new_HolidayDiscount holiday_name discount_percentage) :=
    "Descuento " +:+ holiday_name +:+ " ("
    +:+ str_number discount_percentage +:+ "%)"
|}.

(** [PriceCalculator.calculate_final_price] *)
Definition calculate_final_price {T} `{DiscountStrategy T}
    (original_price : Q) (discount_strategy : T) : Q :=
  apply_discount discount_strategy original_price.

(** [PriceCalculator.show_price_breakdown] *)
Definition show_price_breakdown `{Builtins} {T} `{DiscountStrategy T}
    (original_price : Q) (discount_strategy : T) : M (list string) () :=
  let final_price := calculate_final_price original_price discount_strategy in
  let discount_amount := (original_price - final_price)%Q in
  print ("Precio original: $" +:+ format_2f original_price) ;;
  print ("Descuento (" +:+ get_discount_type discount_strategy +:+ "): -$"
         +:+ format_2f discount_amount) ;;
  print ("Precio final: $" +:+ format_2f final_price).

(** The contract the discount strategies share: the price after the
    discount lies between 0 and the price before it. *)
Definition within_price (amount v : Q) : Prop := (0 <= v ∧ v <= amount)%Q.

(** *** Payments

    [payment_details] is a dictionary of strings: the processors slice
    the entry they read, and every caller passes strings. *)
Class PaymentProcessor (T : Type) := {
  process_payment :
    T → Q → gmap string string → M (list string) (gmap string value);
  get_processor_name : T → string
}.

(** [s[-n:]] and [s[:n]] *)
Definition last_chars (n : nat) (s : string) : string :=
  String.substring (String.length s - n) n s.

Definition first_chars (n : nat) (s : string) : string :=
  String.substring 0 n s.

(** The dictionary literal every processor returns. *)
Definition success (transaction_id : string) : gmap string value :=
  <["status" := VStr "success"]>
    (<["transaction_id" := VStr transaction_id]> ∅).

Inductive CreditCardProcessor := new_CreditCardProcessor.

#[global] Instance CreditCardProcessor_Processor `{Builtins}
    : PaymentProcessor CreditCardProcessor := {|
  process_payment _ amount payment_details :=
    let card_number := dict_get payment_details "card_number" "XXXX" in
    print ("Procesando pago de $" +:+ format_2f amount
           +:+ " con tarjeta de crédito " +:+ last_chars 4 card_number) ;;
    mret (success ("CC_" +:+ pretty (hash card_number `mod` 10000)%Z));
  get_processor_name _ := "Tarjeta de Crédito"
|}.

Inductive PayPalProcessor := new_PayPalProcessor.

#[global] Instance PayPalProcessor_Processor `{Builtins}
    : PaymentProcessor PayPalProcessor := {|
  process_payment _ amount payment_details :=
    let email := dict_get payment_details "email" "usuario@ejemplo.com" in
    print ("Procesando pago de $" +:+ format_2f amount
           +:+ " con PayPal para " +:+ email) ;;
    mret (success ("PP_" +:+ pretty (hash email `mod` 10000)%Z));
  get_processor_name _ := "PayPal"
|}.

Inductive BitcoinProcessor := new_BitcoinProcessor.

#[global] Instance BitcoinProcessor_Processor `{Builtins}
    : PaymentProcessor BitcoinProcessor := {|
  process_payment _ amount payment_details :=
    let wallet := dict_get payment_details "wallet_address" "XXXX" in
    print ("Procesando pago de $" +:+ format_2f amount
           +:+ " con Bitcoin a wallet " +:+ first_chars 6 wallet +:+ "...") ;;
    mret (success ("BTC_" +:+ pretty (hash wallet `mod` 10000)%Z));
  get_processor_name _ := "Bitcoin"
|}.

Inductive BankTransferProcessor := new_BankTransferProcessor.

#[global] Instance BankTransferProcessor_Processor `{Builtins}
    : PaymentProcessor BankTransferProcessor := {|
  process_payment _ amount payment_details :=
    let account := dict_get payment_details "account_number" "XXXX" in
    print ("Procesando transferencia de $" +:+ format_2f amount
           +:+ " a cuenta " +:+ last_chars 4 account) ;;
    mret (success ("BT_" +:+ pretty (hash account `mod` 10000)%Z));
  get_processor_name _ := "Transferencia Bancaria"
|}.

(** The shape of a result: its keys, each with the type of its value. *)
Definition shape (result : gmap string value) : gmap string type_name :=
  type <$> result.

(** The shape with exactly the keys ['status'] and ['transaction_id'],
    both strings. *)
Definition payment_shape : gmap string type_name :=
  <["status" := str_]> (<["transaction_id" := str_]> ∅).

(** A call that returns a dictionary of that shape. *)
Definition returns_payment (c : M (list string) (gmap string value))
    (out : list string) : Prop :=
  ∃ result, (c out).1 = Return result
            ∧ dom result = {[ "status"; "transaction_id" ]}
            ∧ shape result = payment_shape.

(** [PaymentService.process_order_payment] *)
Definition process_order_payment {T} `{PaymentProcessor T}
    (amount : Q) (processor : T) (payment_details : gmap string string)
    : M (list string) (gmap string value) :=
  print (nl +:+ "💰 Procesando pago con " +:+ get_processor_name processor) ;;
  result ← process_payment processor amount payment_details ;
  status ← dict_getitem result "status" ;
  (if decide (status = VStr "success")
   then transaction_id ← dict_getitem result "transaction_id" ;
        print ("✅ Pago exitoso. ID de transacción: " +:+ str transaction_id)
   else print ("❌ Error en el pago: "
               +:+ str (dict_get result "error" (VStr "Error desconocido")))) ;;
  mret result.

End OCP.

(** ** Classes under [ABCMeta] *)

Module PyClass.
Import Py.

(** A method body runs with the console and the attributes of its
    receiver as its state. *)
Record frame := { stdout : list string; self : gmap string value }.

#[global] Instance console_frame : Console frame :=
  λ line f, {| stdout := stdout f ++ [line]; self := self f |}.

(** A function defined in a class body: the flag [@abstractmethod]
    sets, the number of parameters after [self], and the body. *)
Record function := {
  __isabstractmethod__ : bool;
  parameters : nat;
  body : list value → M frame value
}.

Definition def (parameters : nat) (body : list value → M frame value)
    : function :=
  {| __isabstractmethod__ := false; parameters := parameters; body := body |}.

Definition abstractmethod (f : function) : function :=
  {| __isabstractmethod__ := true; parameters := parameters f; body := body f |}.

(** [pass] *)
Definition pass {S} : M S value := mret VNone.

(** [self.attr] and [self.attr = v] *)
Definition self_attr (attr : string) : M frame value :=
  λ f, match self f !! attr with
       | Some v => (Return v, f)
       | None => (Raise (Exception AttributeError attr), f)
       end.

Definition set_self_attr (attr : string) (v : value) : M frame () :=
  modify (λ f, {| stdout := stdout f; self := <[attr := v]> (self f) |}).

(** The [i]-th argument of a call; [apply] has checked their number. *)
Definition argument (args : list value) (i : nat) : value :=
  default VNone (args !! i).

Definition namespace : Type := gmap string function.

(** A class as it appears in a method resolution order: its name and
    the namespace of its body. *)
Definition entry : Type := string * namespace.

Record class := {
  __name__ : string;
  __dict__ : namespace;
  inherited : list entry;
  __abstractmethods__ : gset string
}.

(** [cls.__mro__], without [object]. *)
Definition __mro__ (cls : class) : list entry :=
  (__name__ cls, __dict__ cls) :: inherited cls.

(** The C3 merge of the linearisations of the bases and of the list of
    bases: take the first head that is in the tail of no sequence. *)
Definition in_tail (c : entry) (seq : list entry) : bool :=
  bool_decide (c.1 ∈ (tail seq).*1).

Definition candidate (seqs : list (list entry)) : option entry :=
  find (λ c, forallb (λ seq, negb (in_tail c seq)) seqs)
       (omap head seqs).

Definition drop_head (c : entry) (seq : list entry) : list entry :=
  match seq with
  | h :: t => if bool_decide (h.1 = c.1) then t else seq
  | [] => []
  end.

Fixpoint merge (fuel : nat) (seqs : list (list entry)) : option (list entry) :=
  match filter (λ seq, seq ≠ []) seqs with
  | [] => Some []
  | seqs =>
      match fuel with
      | O => None
      | S fuel =>
          match candidate seqs with
          | None => None
          | Some c => (c ::.) <$> merge fuel (drop_head c <$> seqs)
          end
      end
  end.

(** Every step of the merge takes one class off the sequences. *)
Definition linearize (bases : list class) : option (list entry) :=
  let seqs := (__mro__ <$> bases) ++ [(λ b, (__name__ b, __dict__ b)) <$> bases] in
  merge (sum_list (length <$> seqs)) seqs.

(** [getattr(cls, attr, None)] on a method resolution order. *)
Fixpoint getattr (mro : list entry) (attr : string) : option function :=
  match mro with
  | [] => None
  | (_, ns) :: mro =>
      match ns !! attr with
      | Some f => Some f
      | None => getattr mro attr
      end
  end.

Definition is_abstract (f : option function) : bool :=
  match f with
  | Some f => __isabstractmethod__ f
  | None => false
  end.

(** [ABCMeta.__new__(name, bases, namespace)], the class statement: the
    linearisation, then the names that are abstract in the body or are
    abstract in a base and still resolve to an abstract function. *)
Definition class_statement (name : string) (bases : list class)
    (ns : namespace) : outcome class :=
  match linearize bases with
  | None =>
      Raise (Exception TypeError
               "Cannot create a consistent method resolution order (MRO)")
  | Some inherited =>
      let mro := (name, ns) :: inherited in
      let own := dom (filter (λ kv, __isabstractmethod__ kv.2 = true) ns) in
      let from_bases :=
        filter (λ attr, is_abstract (getattr mro attr) = true)
               (⋃ (__abstractmethods__ <$> bases)) in
      Return {| __name__ := name; __dict__ := ns; inherited := inherited;
                __abstractmethods__ := own ∪ from_bases |}
  end.

(** [abc.ABC] *)
Definition ABC : class :=
  {| __name__ := "ABC"; __dict__ := ∅; inherited := [];
     __abstractmethods__ := ∅ |}.

(** The class a statement binds; [ABC] stands in when it raised. *)
Definition bound (stmt : outcome class) : class :=
  match stmt with
  | Return cls => cls
  | Raise _ => ABC
  end.

Record object := { __class__ : class; attributes : gmap string value }.

(** Calling a function on a receiver: too few or too many arguments
    raise [TypeError] before the body runs. *)
Definition apply (f : function) (args : list value)
    : M (list string * gmap string value) value :=
  λ '(out, attrs),
    if decide (length args = parameters f)
    then match body f args {| stdout := out; self := attrs |} with
         | (r, fr) => (r, (stdout fr, self fr))
         end
    else (Raise (Exception TypeError "wrong number of arguments"),
          (out, attrs)).

(** [cls(...)]: [object.__new__] refuses a class that still has
    abstract methods; then [__init__] runs on the new instance. *)
Definition instantiate (cls : class) (args : list value)
    : M (list string) object :=
  λ out,
    if decide (__abstractmethods__ cls ≠ ∅)
    then (Raise (Exception TypeError
                   ("Can't instantiate abstract class " +:+ __name__ cls)),
          out)
    else
      match getattr (__mro__ cls) "__init__" with
      | None =>
          match args with
          | [] => (Return {| __class__ := cls; attributes := ∅ |}, out)
          | _ => (Raise (Exception TypeError
                           (__name__ cls +:+ "() takes no arguments")), out)
          end
      | Some init =>
          match apply init args (out, ∅) with
          | (Return _, (out, attrs)) =>
              (Return {| __class__ := cls; attributes := attrs |}, out)
          | (Raise e, (out, _)) => (Raise e, out)
          end
      end.

(** [obj.method(...)] *)
Definition call (method : string) (args : list value)
    : M (list string * object) value :=
  λ '(out, obj),
    match getattr (__mro__ (__class__ obj)) method with
    | None => (Raise (Exception AttributeError method), (out, obj))
    | Some f =>
        match apply f args (out, attributes obj) with
        | (r, (out, attrs)) =>
            (r, (out, {| __class__ := __class__ obj; attributes := attrs |}))
        end
    end.

End PyClass.

(** ** isp_example.py *)

Module ISP.
Import Py PyClass.

Definition BadMultiFunctionDevice_body : namespace :=
  <["print_document" := abstractmethod (def 1 (λ _, pass))]> (
  <["print_color" := abstractmethod (def 1 (λ _, pass))]> (
  <["scan_document" := abstractmethod (def 0 (λ _, pass))]> (
  <["scan_to_email" := abstractmethod (def 1 (λ _, pass))]> (
  <["send_fax" := abstractmethod (def 2 (λ _, pass))]> (
  <["receive_fax" := abstractmethod (def 0 (λ _, pass))]> (
  <["copy_document" := abstractmethod (def 1 (λ _, pass))]> (
  <["copy_color" := abstractmethod (def 1 (λ _, pass))]> ∅))))))).

Definition BadMultiFunctionDevice_stmt : outcome class :=
  class_statement "BadMultiFunctionDevice" [ABC] BadMultiFunctionDevice_body.

Definition BadMultiFunctionDevice : class := bound BadMultiFunctionDevice_stmt.

Definition not_supported (message : string) : list value → M frame value :=
  λ _, raise (Exception NotImplementedError message).

Definition BadSimplePrinter_body : namespace :=
  <["print_document" :=
      def 1 (λ args, print ("Imprimiendo: " +:+ str (argument args 0)) ;;
                     mret VNone)]> (
  <["print_color" := def 1 (not_supported "Esta impresora no soporta color")]> (
  <["scan_document" := def 0 (not_supported "Esta impresora no puede escanear")]> (
  <["scan_to_email" := def 1 (not_supported "Esta impresora no puede escanear")]> (
  <["send_fax" := def 2 (not_supported "Esta impresora no puede enviar fax")]> (
  <["receive_fax" := def 0 (not_supported "Esta impresora no puede recibir fax")]> (
  <["copy_document" := def 1 (not_supported "Esta impresora no puede copiar")]> (
  <["copy_color" := def 1 (not_supported "Esta impresora no puede copiar")]> ∅))))))).

Definition BadSimplePrinter_stmt : outcome class :=
  class_statement "BadSimplePrinter" [BadMultiFunctionDevice] BadSimplePrinter_body.

Definition BadSimplePrinter : class := bound BadSimplePrinter_stmt.

(** The segregated interfaces. *)
Definition Printer : class :=
  bound (class_statement "Printer" [ABC]
           (<["print_document" := abstractmethod (def 1 (λ _, pass))]> ∅)).

Definition ColorPrinter : class :=
  bound (class_statement "ColorPrinter" [Printer]
           (<["print_color" := abstractmethod (def 1 (λ _, pass))]> ∅)).

Definition Scanner : class :=
  bound (class_statement "Scanner" [ABC]
           (<["scan_document" := abstractmethod (def 0 (λ _, pass))]> (
            <["scan_to_email" := abstractmethod (def 1 (λ _, pass))]> ∅))).

Definition Copier : class :=
  bound (class_statement "Copier" [ABC]
           (<["copy_document" := abstractmethod (def 1 (λ _, pass))]> ∅)).

Definition ColorCopier : class :=
  bound (class_statement "ColorCopier" [Copier]
           (<["copy_color" := abstractmethod (def 1 (λ _, pass))]> ∅)).

(** [print(f"[{self.model}] {text}")] *)
Definition print_with_model (text : string) : M frame () :=
  model ← self_attr "model" ;
  print ("[" +:+ str model +:+ "] " +:+ text).

Definition SimplePrinter : class :=
  bound (class_statement "SimplePrinter" [Printer]
           (<["__init__" := def 1 (λ args, set_self_attr "model" (argument args 0) ;;
                                           mret VNone)]> (
            <["print_document" :=
                def 1 (λ args, print_with_model
                                 ("Imprimiendo: " +:+ str (argument args 0)) ;;
                               mret VNone)]> ∅))).

Definition MultiFunctionPrinter_scan_document : M frame value :=
  print_with_model "Escaneando..." ;;
  model ← self_attr "model" ;
  mret (VStr ("Documento escaneado por " +:+ str model)).

Definition MultiFunctionPrinter_body : namespace :=
  <["__init__" := def 1 (λ args, set_self_attr "model" (argument args 0) ;;
                                 mret VNone)]> (
  <["print_document" :=
      def 1 (λ args, print_with_model
                       ("Imprimiendo: " +:+ str (argument args 0)) ;;
                     mret VNone)]> (
  <["print_color" :=
      def 1 (λ args, print_with_model
                       ("Imprimiendo a color: " +:+ str (argument args 0)) ;;
                     mret VNone)]> (
  <["scan_document" := def 0 (λ _, MultiFunctionPrinter_scan_document)]> (
  <["scan_to_email" :=
      def 1 (λ args, content ← MultiFunctionPrinter_scan_document ;
                     print_with_model
                       ("Enviando escaneo a: " +:+ str (argument args 0)) ;;
                     mret content)]> (
  <["copy_document" :=
      def 1 (λ args, print_with_model
                       ("Copiando: " +:+ str (argument args 0)) ;;
                     mret VNone)]> (
  <["copy_color" :=
      def 1 (λ args, print_with_model
                       ("Copiando a color: " +:+ str (argument args 0)) ;;
                     mret VNone)]> ∅)))))).

(** [class MultiFunctionPrinter(ColorPrinter, Scanner, Copier, ColorCopier)] *)
Definition MultiFunctionPrinter_stmt : outcome class :=
  class_statement "MultiFunctionPrinter"
    [ColorPrinter; Scanner; Copier; ColorCopier] MultiFunctionPrinter_body.

(** A class that is not in the script: a subclass of the monolithic
    interface that defines [print_document] and nothing else. *)
Definition OnlyPrints_body : namespace :=
  <["print_document" :=
      def 1 (λ args, print ("Imprimiendo: " +:+ str (argument args 0)) ;;
                     mret VNone)]> ∅.

Definition OnlyPrints : class :=
  bound (class_statement "OnlyPrints" [BadMultiFunctionDevice] OnlyPrints_body).

(** The methods of [BadSimplePrinter] that are stubs, each with the
    number of arguments it takes. *)
Definition stubs : list (string * nat) :=
  [("print_color", 1); ("scan_document", 0); ("scan_to_email", 1);
   ("send_fax", 2); ("receive_fax", 0); ("copy_document", 1);
   ("copy_color", 1)].

End ISP.

(** ** dip_example.py: the services around the repositories *)

Module DIPServices.
Import Py DIP.

(** A computation that changes nothing but the console. *)
Definition only_prints {A} (c : M world A) : Prop :=
  ∀ w, dicts (c w).2 = dicts w ∧ stores (c w).2 = stores w
       ∧ repos (c w).2 = repos w.

Section Services.
Context (repr : gmap string value → string).

(** [DataService] holds the injected repository. *)
Record DataService := { repository : addr }.

(** [f"{loaded_data}"] for what [load] returned. *)
Definition repr_loaded (loaded_data : dict_ref) : M world string :=
  match loaded_data with
  | Ref a => content ← deref dicts a ; mret (repr content)
  | New content => mret (repr content)
  end.

(** [DataService.process_data] *)
Definition process_data (self : DataService) (data : addr) : M world bool :=
  r ← deref repos (repository self) ;
  print ("Procesando datos con " +:+ get_repository_type r +:+ "...") ;;
  success ← save repr (repository self) data ;
  (if success : bool
   then content ← deref dicts data ;
        id ← dict_getitem content "id" ;
        loaded_data ← load (repository self) id ;
        text ← repr_loaded loaded_data ;
        print ("Datos verificados: " +:+ text)
   else mret ()) ;;
  mret success.

(** [DataService.cleanup_data] *)
Definition cleanup_data (self : DataService) (id : value) : M world bool :=
  r ← deref repos (repository self) ;
  print ("Limpiando datos con " +:+ get_repository_type r +:+ "...") ;;
  delete_ (repository self) id.

End Services.

(** [ServiceFactory.create_sms_notification_service] *)
Definition create_sms_notification_service (provider : string)
    : NotificationService :=
  {| message_sender := SMSService provider |}.

(** The record [load] makes up when nothing is filed under [id]. *)
Definition placeholder (r : DataRepository) (id : value) : gmap string value :=
  default_record id
    match r with
    | DatabaseRepository _ _ => "Data from database"
    | FileRepository _ _ => "Data from file"
    | CloudRepository _ _ => "Data from cloud"
    end.

(** Two ids under which a repository files the same record: equal ids
    for the database and the cloud, ids that print the same for files. *)
Definition same_key (r : DataRepository) (id1 id2 : value) : Prop :=
  match r with
  | FileRepository _ _ => str id1 = str id2
  | _ => id1 = id2
  end.

(** [data.get('id', 'unknown')] *)
Definition data_id (content : gmap string value) : value :=
  dict_get content "id" (VStr "unknown").

(** A program with a database and a file repository, a record whose id
    is the number 5 and two records without an id. *)
Definition mixed_records : list action :=
  [ANewDatabase "jdbc:mysql://localhost:3306/mydb"; ANewFile "/data/files";
   ANewDict (<["id" := VInt 5]> ∅);
   ANewDict (<["name" := VStr "Laptop"]> ∅);
   ANewDict (<["name" := VStr "Mouse"]> ∅)].

(** *** Loggers and the application

    A [FileLogger] keeps its entries in a list of its own; the state of
    an application is the heap of the repositories and these lists. *)
Inductive Logger :=
| ConsoleLogger
| FileLogger (filename : string) (logs : addr).

Record app_world := {
  heap : world;
  log_lists : gmap addr (list string)
}.

#[global] Instance console_app_world : Console app_world :=
  λ line s, {| heap := write_line line (heap s); log_lists := log_lists s |}.

(** A computation on the heap, run inside an application. *)
Definition on_heap {A} (c : M world A) : M app_world A :=
  λ s, match c (heap s) with
       | (r, w) => (r, {| heap := w; log_lists := log_lists s |})
       end.

(** [self.logs.append(log_entry)] *)
Definition logs_append (logs : addr) (log_entry : string) : M app_world () :=
  λ s, match log_lists s !! logs with
       | Some l =>
           (Return (),
            {| heap := heap s;
               log_lists := <[logs := l ++ [log_entry]]> (log_lists s) |})
       | None => (Raise (Exception SystemError "dangling reference"), s)
       end.

(** [Logger.log] *)
Definition log (self : Logger) (level message : string) : M app_world () :=
  match self with
  | ConsoleLogger => print ("[CONSOLE " +:+ level +:+ "] " +:+ message)
  | FileLogger filename logs =>
      let log_entry := "[FILE " +:+ level +:+ "] " +:+ message in
      logs_append logs log_entry ;;
      print ("Escribiendo a " +:+ filename +:+ ": " +:+ log_entry)
  end.

Record Application := {
  logger : Logger;
  data_service : DataService;
  notification_service : NotificationService
}.

(** The dictionary literal of [Application.run]. *)
Definition user_data_literal : gmap string value :=
  <["id" := VStr "user_001"]> (
  <["name" := VStr "Ana García"]> (
  <["email" := VStr "ana@ejemplo.com"]> ∅)).

(** [Application.run] *)
Definition Application_run (repr : gmap string value → string)
    (self : Application) : M app_world () :=
  log (logger self) "INFO" "Aplicación iniciada" ;;
  user_data ← on_heap (new_dict user_data_literal) ;
  success ← on_heap (process_data repr (data_service self) user_data) ;
  (if success : bool
   then log (logger self) "INFO" "Datos procesados exitosamente" ;;
        content ← on_heap (deref dicts user_data) ;
        email ← dict_getitem content "email" ;
        send_notification (notification_service self)
          "Tu cuenta ha sido creada exitosamente" (str email) ;;
        mret ()
   else log (logger self) "ERROR" "Error al procesar datos") ;;
  log (logger self) "INFO" "Aplicación finalizada".

(** The entries a [FileLogger] holds, none for a [ConsoleLogger]. *)
Definition entries (self : Logger) (s : app_world) : list string :=
  match self with
  | ConsoleLogger => []
  | FileLogger _ logs => default [] (log_lists s !! logs)
  end.

(** What one call of [log] adds to the entries of the logger. *)
Definition logged (self : Logger) (level message : string) : list string :=
  match self with
  | ConsoleLogger => []
  | FileLogger _ _ => ["[FILE " +:+ level +:+ "] " +:+ message]
  end.

(** Two states of an application with the same objects in the heap. *)
Definition same_objects (s s' : app_world) : Prop :=
  dicts (heap s') = dicts (heap s) ∧ stores (heap s') = stores (heap s)
  ∧ repos (heap s') = repos (heap s).

(** The logger can write: a [FileLogger]'s list is in the state. *)
Definition logger_ready (self : Logger) (s : app_world) : Prop :=
  match self with
  | ConsoleLogger => True
  | FileLogger _ logs => is_Some (log_lists s !! logs)
  end.

(** The production configuration of [main], on the heap of
    [two_repositories]: a file logger with no entry yet, the database
    repository, and the SMS sender. *)
Definition production_state : app_world :=
  {| heap := run repr_elided two_repositories;
     log_lists := {[ 1%positive := [] ]} |}.

Definition production_app : Application :=
  {| logger := FileLogger "app.log" 1%positive;
     data_service := {| repository := 1%positive |};
     notification_service := create_sms_notification_service "Twilio" |}.

End DIPServices.

(** ** srp_example.py: reports, and the classes that violate SRP *)

Module SRPReports.
Import Py SRP.

(** [BadReport]: one class for everything; [data] is a string. *)
Record BadReport := { data : string }.

Definition BadReport_generate_content (self : BadReport) : string :=
  "Reporte generado con datos: " +:+ data self.

Definition BadReport_format_to_html (self : BadReport) : string :=
  let content := BadReport_generate_content self in
  "<html><body>" +:+ content +:+ "</body></html>".

(** [ReportGenerator.generate_content] *)
Definition generate_content (data : string) : string :=
  "Reporte generado con datos: " +:+ data.

(** [ReportFormatter] *)
Definition format_to_html (content : string) : string :=
  "<html><body>" +:+ content +:+ "</body></html>".

Definition format_to_pdf (content : string) : string := "PDF: " +:+ content.

(** The console and the files written so far. *)
Record disk := { out : list string; files : gmap string string }.

#[global] Instance console_disk : Console disk :=
  λ line s, {| out := out s ++ [line]; files := files s |}.

Section Reports.
(** [json.dumps] of a string, and the operating system's answer to
    [open(filename, 'w')]: the text of the exception it raises, if any. *)
Context (json_string : string → string).
Context (open_error : string → option string).

(** [json.dumps({"report": content}, indent=2)] *)
Definition format_to_json (content : string) : string :=
  "{" +:+ nl +:+ "  " +:+ json_string "report" +:+ ": "
  +:+ json_string content +:+ nl +:+ "}".

(** [ReportPrinter.print_report] *)
Definition print_report (formatted_report : string) : M disk () :=
  print ("Imprimiendo: " +:+ formatted_report).

(** [ReportSaver.save_to_file]: what [open] raises is caught and
    printed.  A [write] that fails after a successful [open] is not
    modelled. *)
Definition save_to_file (content filename : string) : M disk () :=
  print ("Guardando reporte en archivo: " +:+ filename) ;;
  match open_error filename with
  | None =>
      modify (λ s, {| out := out s;
                      files := <[filename := content]> (files s) |}) ;;
      print ("✅ Archivo guardado exitosamente: " +:+ filename)
  | Some e => print ("❌ Error al guardar archivo: " +:+ e)
  end.

(** [ReportService.process_report] *)
Definition process_report (data filename format_type : string)
    : M disk string :=
  let content := generate_content data in
  let formatted :=
    if decide (format_type = "html") then format_to_html content
    else if decide (format_type = "pdf") then format_to_pdf content
    else if decide (format_type = "json") then format_to_json content
    else content in
  print_report formatted ;;
  save_to_file formatted filename ;;
  mret formatted.

End Reports.

(** Registrations one after the other, as in [main]. *)
Definition register_all (md5_hexdigest : string → string)
    (requests : list (string * string * string)) (s : state) : state :=
  foldl (λ s '(username, email, password),
           (register_user md5_hexdigest username email password s).2)
        s requests.

(** The users a list of requests adds: one for each valid email. *)
Definition accepted (md5_hexdigest : string → string)
    (requests : list (string * string * string)) : list User :=
  omap (λ '(username, email, password),
          if is_valid email
          then Some {| username := username; email := email;
                       password := md5_hexdigest password |}
          else None)
       requests.

End SRPReports.

(** ** lsp_example.py: resizing, birds and vehicles *)

Module LSPShapes.
Import Py LSP.

(** [ShapeCalculator.resize_rectangle]: the rectangle is changed in
    place; the function returns it as it is after the call. *)
Definition resize_rectangle (format_2f : Q → string) (rectangle : instance)
    (new_width new_height : Q) : M (list string) instance :=
  print ("Redimensionando " +:+ get_color rectangle +:+ " rectangle:") ;;
  print ("  Área original: " +:+ format_2f (calculate_area rectangle)) ;;
  let rectangle := set_width rectangle new_width in
  let rectangle := set_height rectangle new_height in
  print ("  Área nueva: " +:+ format_2f (calculate_area rectangle)) ;;
  mret rectangle.

End LSPShapes.

Module LSPClasses.
Import Py PyClass.

(** [isinstance(obj, cls)]: the class is in the method resolution order
    of the object's class. *)
Definition isinstance (obj : object) (cls : class) : bool :=
  bool_decide (__name__ cls ∈ (__mro__ (__class__ obj)).*1).

(** [print(f"{self.name}{text}")] *)
Definition print_name (text : string) : M frame value :=
  name ← self_attr "name" ;
  print (str name +:+ text) ;;
  mret VNone.

(** [Bird.__init__] *)
Definition Bird_init : function :=
  def 1 (λ args, set_self_attr "name" (argument args 0) ;; mret VNone).

Definition Bird : class :=
  bound (class_statement "Bird" [ABC]
           (<["__init__" := Bird_init]> (
            <["eat" := def 0 (λ _, print_name " está comiendo")]> (
            <["sleep" := def 0 (λ _, print_name " está durmiendo")]> (
            <["make_sound" := abstractmethod (def 0 (λ _, pass))]> ∅))))).

Definition Flyable : class :=
  bound (class_statement "Flyable" [ABC]
           (<["fly" := abstractmethod (def 0 (λ _, pass))]> (
            <["get_flight_speed" := abstractmethod (def 0 (λ _, pass))]> ∅))).

Definition Swimmable : class :=
  bound (class_statement "Swimmable" [ABC]
           (<["swim" := abstractmethod (def 0 (λ _, pass))]> (
            <["get_swim_speed" := abstractmethod (def 0 (λ _, pass))]> ∅))).

Definition RunningBird : class :=
  bound (class_statement "RunningBird" [ABC]
           (<["run" := abstractmethod (def 0 (λ _, pass))]> (
            <["get_running_speed" := abstractmethod (def 0 (λ _, pass))]> ∅))).

(** [super().__init__(name)] in the four bird classes. *)
Definition init_named (name : string) : function :=
  def 0 (λ _, body Bird_init [VStr name]).

Definition Eagle : class :=
  bound (class_statement "Eagle" [Bird; Flyable]
           (<["__init__" := init_named "Águila"]> (
            <["make_sound" := def 0 (λ _, print_name " hace: ¡Grito agudo!")]> (
            <["fly" := def 0 (λ _, print_name " vuela alto en el cielo")]> (
            <["get_flight_speed" := def 0 (λ _, mret (VInt 80))]> ∅))))).

Definition Penguin : class :=
  bound (class_statement "Penguin" [Bird; Swimmable; RunningBird]
           (<["__init__" := init_named "Pingüino"]> (
            <["make_sound" := def 0 (λ _, print_name " hace: ¡Graznido!")]> (
            <["swim" :=
                def 0 (λ _, print_name " nada graciosamente bajo el agua")]> (
            <["get_swim_speed" := def 0 (λ _, mret (VInt 35))]> (
            <["run" := def 0 (λ _, print_name " corre torpemente en tierra")]> (
            <["get_running_speed" := def 0 (λ _, mret (VInt 5))]> ∅))))))).

Definition Duck : class :=
  bound (class_statement "Duck" [Bird; Flyable; Swimmable]
           (<["__init__" := init_named "Pato"]> (
            <["make_sound" := def 0 (λ _, print_name " hace: ¡Cuac cuac!")]> (
            <["fly" := def 0 (λ _, print_name " vuela sobre el lago")]> (
            <["get_flight_speed" := def 0 (λ _, mret (VInt 65))]> (
            <["swim" := def 0 (λ _, print_name " nada en el estanque")]> (
            <["get_swim_speed" := def 0 (λ _, mret (VInt 8))]> ∅))))))).

Definition Ostrich : class :=
  bound (class_statement "Ostrich" [Bird; RunningBird]
           (<["__init__" := init_named "Avestruz"]> (
            <["make_sound" := def 0 (λ _, print_name " hace: ¡Rugido grave!")]> (
            <["run" :=
                def 0 (λ _, print_name " corre muy rápido por la sabana")]> (
            <["get_running_speed" := def 0 (λ _, mret (VInt 70))]> ∅))))).

(** The object a call is made on. *)
Definition gets_object : M (list string * object) object :=
  λ s, (Return s.2, s).

(** [bird.name], read from outside the object. *)
Definition name_of (bird : object) : M (list string * object) value :=
  λ s, match attributes bird !! "name" with
       | Some v => (Return v, s)
       | None => (Raise (Exception AttributeError "name"), s)
       end.

#[global] Instance console_call : Console (list string * object) :=
  λ line s, (s.1 ++ [line], s.2).

(** [BirdCare]; the bird is the object in the state. *)
Definition feed_bird : M (list string * object) () :=
  bird ← gets_object ;
  name ← name_of bird ;
  print ("Alimentando a " +:+ str name) ;;
  call "eat" [] ;;
  mret ().

Definition put_bird_to_sleep : M (list string * object) () :=
  bird ← gets_object ;
  name ← name_of bird ;
  print ("Poniendo a dormir a " +:+ str name) ;;
  call "sleep" [] ;;
  mret ().

Definition exercise_flying_bird : M (list string * object) () :=
  print "Ejercitando pájaro volador" ;;
  call "fly" [] ;;
  speed ← call "get_flight_speed" [] ;
  print ("Velocidad de vuelo: " +:+ str speed +:+ " km/h").

Definition exercise_swimming_bird : M (list string * object) () :=
  print "Ejercitando pájaro nadador" ;;
  call "swim" [] ;;
  speed ← call "get_swim_speed" [] ;
  print ("Velocidad de nado: " +:+ str speed +:+ " km/h").

(** The body of the two loops of [main] for one bird. *)
Definition care_for_bird : M (list string * object) () :=
  feed_bird ;;
  call "make_sound" [] ;;
  bird ← gets_object ;
  (if isinstance bird Flyable then exercise_flying_bird else mret ()) ;;
  (if isinstance bird Swimmable then exercise_swimming_bird else mret ()).

(** The vehicles. *)
Definition print_brand (text : string) : M frame value :=
  brand ← self_attr "brand" ;
  print (str brand +:+ text) ;;
  mret VNone.

Definition Vehicle : class :=
  bound (class_statement "Vehicle" [ABC]
           (<["__init__" :=
                def 1 (λ args, set_self_attr "brand" (argument args 0) ;;
                               mret VNone)]> (
            <["move" := abstractmethod (def 0 (λ _, pass))]> (
            <["stop" := abstractmethod (def 0 (λ _, pass))]> ∅)))).

Definition MotorVehicle : class :=
  bound (class_statement "MotorVehicle" [Vehicle]
           (<["start_engine" := abstractmethod (def 0 (λ _, pass))]> (
            <["stop_engine" := abstractmethod (def 0 (λ _, pass))]> ∅))).

Definition ManualVehicle : class :=
  bound (class_statement "ManualVehicle" [Vehicle]
           (<["pedal" := abstractmethod (def 0 (λ _, pass))]> ∅)).

Definition Car : class :=
  bound (class_statement "Car" [MotorVehicle]
           (<["move" := def 0 (λ _, print_brand " avanzando en carretera")]> (
            <["stop" := def 0 (λ _, print_brand " frenando")]> (
            <["start_engine" := def 0 (λ _, print_brand " motor encendido")]> (
            <["stop_engine" := def 0 (λ _, print_brand " motor apagado")]> ∅))))).

Definition Bicycle : class :=
  bound (class_statement "Bicycle" [ManualVehicle]
           (<["move" := def 0 (λ _, print_brand " pedaleando")]> (
            <["stop" := def 0 (λ _, print_brand " frenando con las manos")]> (
            <["pedal" := def 0 (λ _, print_brand " pedaleando más fuerte")]> ∅)))).

(** A call that returns, whatever it returns. *)
Definition is_return {A} (r : outcome A) : bool :=
  match r with
  | Return _ => true
  | Raise _ => false
  end.

Definition succeeds {S A} (c : M S A) (s : S) : Prop :=
  is_return (c s).1 = true.

(** The four bird classes of [main], each with the name its
    constructor passes on. *)
Definition birds : list (class * string) :=
  [(Eagle, "Águila"); (Penguin, "Pingüino"); (Duck, "Pato");
   (Ostrich, "Avestruz")].

(** An instance with one attribute. *)
Definition instance_with (cls : class) (attr : string) (v : value) : object :=
  {| __class__ := cls; attributes := {[ attr := v ]} |}.

End LSPClasses.

(** ** ocp_example.py: the calculator that violates OCP *)

Module OCPBad.
Import Py OCP.

(** What [BadAreaCalculator.calculate_area] can be given: an instance
    of the plain classes [Rectangle] and [Circle] it tests for, or an
    object of a class that implements [Shape]. *)
Inductive any_shape :=
| Rectangle (width height : Q)
| Circle (radius : Q)
| Other (shape : shape_object).

(** [BadAreaCalculator.calculate_area]: the chain of [isinstance]. *)
Definition BadAreaCalculator_calculate_area (shape : any_shape) : Q :=
  match shape with
  | Rectangle width height => (width * height)%Q
  | Circle radius => (math_pi * radius ^ 2)%Q
  | Other _ => 0%Q
  end.

(** The key of [payment_details] a processor reads, its default and the
    prefix of its transaction ids. *)
Inductive processor :=
| CreditCard
| PayPal
| Bitcoin
| BankTransfer.

Definition run_processor `{Builtins} (p : processor)
    : Q → gmap string string → M (list string) (gmap string value) :=
  match p with
  | CreditCard => process_payment new_CreditCardProcessor
  | PayPal => process_payment new_PayPalProcessor
  | Bitcoin => process_payment new_BitcoinProcessor
  | BankTransfer => process_payment new_BankTransferProcessor
  end.

Definition run_order `{Builtins} (p : processor)
    : Q → gmap string string → M (list string) (gmap string value) :=
  match p with
  | CreditCard => λ a, process_order_payment a new_CreditCardProcessor
  | PayPal => λ a, process_order_payment a new_PayPalProcessor
  | Bitcoin => λ a, process_order_payment a new_BitcoinProcessor
  | BankTransfer => λ a, process_order_payment a new_BankTransferProcessor
  end.

Definition entry_read (p : processor) (payment_details : gmap string string)
    : string :=
  match p with
  | CreditCard => dict_get payment_details "card_number" "XXXX"
  | PayPal => dict_get payment_details "email" "usuario@ejemplo.com"
  | Bitcoin => dict_get payment_details "wallet_address" "XXXX"
  | BankTransfer => dict_get payment_details "account_number" "XXXX"
  end.

Definition prefix (p : processor) : string :=
  match p with
  | CreditCard => "CC_"
  | PayPal => "PP_"
  | Bitcoin => "BTC_"
  | BankTransfer => "BT_"
  end.

(** Stand-ins where a statement is run on concrete data: builtins whose
    [hash] is negative, and two processors that are not in the script,
    one that declines every payment and one that returns an empty
    result. *)
Definition sample_builtins : Builtins :=
  {| hash := λ s, (- Z.of_nat (String.length s))%Z;
     format_2f := λ _, "0.00";
     str_number := λ _, "0" |}.

Inductive DecliningProcessor := new_DecliningProcessor.

#[global] Instance DecliningProcessor_Processor
    : PaymentProcessor DecliningProcessor := {|
  process_payment _ _ _ :=
    mret (<["status" := VStr "failed"]> (
          <["error" := VStr "Fondos insuficientes"]> ∅));
  get_processor_name _ := "Rechazo"
|}.

Inductive EmptyProcessor := new_EmptyProcessor.

#[global] Instance EmptyProcessor_Processor
    : PaymentProcessor EmptyProcessor := {|
  process_payment _ _ _ := mret ∅;
  get_processor_name _ := "Vacío"
|}.

End OCPBad.

(** ** isp_example.py: the segregated devices *)

Module ISPDevices.
Import Py PyClass ISP.

(** [__init__(self, model)] of the four devices. *)
Definition init_model : function :=
  def 1 (λ args, set_self_attr "model" (argument args 0) ;; mret VNone).

Definition LaserPrinter : class :=
  bound (class_statement "LaserPrinter" [ColorPrinter]
           (<["__init__" := init_model]> (
            <["print_document" :=
                def 1 (λ args, print_with_model
                                 ("Imprimiendo en blanco y negro: "
                                  +:+ str (argument args 0)) ;;
                               mret VNone)]> (
            <["print_color" :=
                def 1 (λ args, print_with_model
                                 ("Imprimiendo a color: "
                                  +:+ str (argument args 0)) ;;
                               mret VNone)]> ∅)))).

(** [DocumentScanner.scan_document] *)
Definition DocumentScanner_scan_document : M frame value :=
  model ← self_attr "model" ;
  let scanned_content := "Documento escaneado por " +:+ str model in
  print_with_model "Escaneando documento..." ;;
  mret (VStr scanned_content).

Definition DocumentScanner : class :=
  bound (class_statement "DocumentScanner" [Scanner]
           (<["__init__" := init_model]> (
            <["scan_document" := def 0 (λ _, DocumentScanner_scan_document)]> (
            <["scan_to_email" :=
                def 1 (λ args, content ← DocumentScanner_scan_document ;
                               print_with_model
                                 ("Enviando escaneo a: "
                                  +:+ str (argument args 0)) ;;
                               mret content)]> ∅)))).

Definition FaxMachine : class :=
  bound (class_statement "FaxMachine" [ABC]
           (<["send_fax" := abstractmethod (def 2 (λ _, pass))]> (
            <["receive_fax" := abstractmethod (def 0 (λ _, pass))]> ∅))).

Definition FaxDevice : class :=
  bound (class_statement "FaxDevice" [FaxMachine]
           (<["__init__" := init_model]> (
            <["send_fax" :=
                def 2 (λ args, print_with_model
                                 ("Enviando fax a " +:+ str (argument args 1)
                                  +:+ ": " +:+ str (argument args 0)) ;;
                               mret VNone)]> (
            <["receive_fax" :=
                def 0 (λ _, print_with_model "Recibiendo fax..." ;;
                            mret (VStr "Fax recibido"))]> ∅)))).

(** The devices the script defines before [MultiFunctionPrinter], each
    with the calls its interfaces promise; [x] stands for an argument. *)
Definition devices (x : value) : list (class * list (string * list value)) :=
  [(SimplePrinter, [("print_document", [x])]);
   (LaserPrinter, [("print_document", [x]); ("print_color", [x])]);
   (DocumentScanner, [("scan_document", []); ("scan_to_email", [x])]);
   (FaxDevice, [("send_fax", [x; x]); ("receive_fax", [])])].

(** The interfaces. *)
Definition interfaces : list class :=
  [Printer; ColorPrinter; Scanner; FaxMachine; Copier; ColorCopier].

End ISPDevices.

(** * Verification *)

(** ** lsp_example.py *)

Section LSP_facts.
Import Py LSP.

(** C7. [BadPenguin.fly] and [BadBicycle.start_engine] are stubs: for
    every instance and in every state of the console, a call raises
    [NotImplementedError] (a typed exception), and nothing is printed
    before it. *)
Theorem C7_stubs_raise_NotImplementedError :
  ∀ (penguin : BadBird) (bicycle : BadVehicle) (out : list string),
    raises (BadPenguin_fly penguin) out NotImplementedError
    ∧ (BadPenguin_fly penguin out).2 = out
    ∧ raises (BadBicycle_start_engine bicycle) out NotImplementedError
    ∧ (BadBicycle_start_engine bicycle out).2 = out.
Proof.
  intros penguin bicycle out. unfold raises; cbn.
  repeat split; eauto.
Qed.

(** The state of a Square after any calls: both sides hold the argument
    of the last call. *)
Lemma Square_calls_sides (s : instance) (x : Q) (cs : list setter_call) :
  class_ s = Square → _width s = x → _height s = x →
  _width (do_calls s cs) = current_side x cs
  ∧ _height (do_calls s cs) = current_side x cs.
Proof.
  revert s x. induction cs as [|c cs IH]; intros s x Hs Hw Hh; [by split|].
  cbn. apply IH.
  - destruct c; cbn; unfold set_width, set_height; rewrite Hs; exact Hs.
  - destruct c; cbn; unfold set_width, set_height; rewrite Hs; reflexivity.
  - destruct c; cbn; unfold set_width, set_height; rewrite Hs; reflexivity.
Qed.

(** C8. A Square stays square: after the constructor and any sequence of
    [set_width] and [set_height] calls, the two stored sides are equal,
    both are the argument of the most recent call (of the constructor if
    there was none), the area is that side squared and the perimeter is
    four times that side. *)
Theorem C8_square_keeps_its_invariant :
  ∀ (color : string) (side : Q) (cs : list setter_call),
    let s := do_calls (new_Square color side) cs in
    let a := current_side side cs in
    _width s = _height s
    ∧ _width s = a
    ∧ calculate_area s = (a * a)%Q
    ∧ (calculate_perimeter s == 4 * a)%Q.
Proof.
  intros color side cs s a.
  destruct (Square_calls_sides (new_Square color side) side cs) as [Hw Hh];
    try reflexivity.
  fold s in Hw, Hh. fold a in Hw, Hh.
  unfold calculate_area, calculate_perimeter. rewrite Hw, Hh.
  repeat split; try reflexivity. ring.
Qed.

(** [resize_rectangle(square, 7, 7)] of [main]: the square of side 5
    becomes the square of side 7. *)
Example square_resized :
  let s := do_calls (new_Square "Morado" 5)
             [call_set_width 7; call_set_height 7] in
  _width s = 7%Q ∧ _height s = 7%Q ∧ (calculate_area s == 49)%Q.
Proof. repeat split. Qed.

(** On a plain Rectangle the two setters are independent. *)
Example rectangle_resized :
  let r := do_calls (new_Rectangle "Naranja" 6 4)
             [call_set_width 8; call_set_height 6] in
  _width r = 8%Q ∧ _height r = 6%Q ∧ (calculate_area r == 48)%Q.
Proof. repeat split. Qed.

End LSP_facts.

(** ** dip_example.py *)

Section DIP_facts.
Import Py DIP.

(** C6. Every sender reports success: [send_message] returns [True] for
    each of the four classes, every message and every recipient, and so
    does [NotificationService.send_notification] whatever sender was
    injected. *)
Theorem C6_every_sender_returns_True :
  ∀ (S : Type) (console : Console S) (sender : MessageSender)
    (message recipient : string) (s : S),
    returns (send_message sender message recipient) s true
    ∧ returns (send_notification {| message_sender := sender |}
                 message recipient) s true.
Proof.
  intros S console sender message recipient s.
  split; destruct sender; reflexivity.
Qed.

Ltac unfold_M :=
  unfold save, load, delete_, store_get, store_discard, store_setitem,
    store_delitem, dict_setitem, new_DatabaseRepository, new_FileRepository,
    new_CloudRepository, new_store, new_repo, new_dict, deref, modify, print,
    mbind, mret, M_bind, M_ret, bind, ret, write_line, console_world,
    set_stores, set_repos, set_dicts in *; cbn in *.

Lemma fresh_store_unused (w : world) (a : addr) (r : DataRepository) :
  stores_owned w → repos w !! a = Some r →
  store_of r ≠ fresh (dom (stores w)).
Proof.
  intros Hown Hr Heq. apply Hown in Hr. apply elem_of_dom in Hr.
  rewrite Heq in Hr. by apply is_fresh in Hr.
Qed.

Section Invariant.
Context (repr : gmap string value → string).

(** Creating an instance keeps the two properties: its store is new. *)
Lemma new_instance_keeps (w : world) (mk : addr → DataRepository) :
  (∀ s, store_of (mk s) = s) →
  stores_owned w → stores_separate w →
  let w' := (new_repo (mk (fresh (dom (stores w))))
               (set_stores (insert (fresh (dom (stores w))) ∅) w)).2 in
  stores_owned w' ∧ stores_separate w'.
Proof.
  intros Hmk Hown Hsep; unfold_M. split.
  - intros a r; cbn. destruct (decide (fresh (dom (repos w)) = a)) as [<-|Hne].
    + rewrite lookup_insert_eq. intros [= <-]. rewrite Hmk, lookup_insert_eq. eauto.
    + rewrite lookup_insert_ne by done. intros Hr.
      rewrite lookup_insert_ne by (symmetry; eapply fresh_store_unused; eauto).
      eauto.
  - intros a b ra rb; cbn.
    destruct (decide (fresh (dom (repos w)) = a)) as [<-|Ha];
      destruct (decide (fresh (dom (repos w)) = b)) as [<-|Hb]; try done.
    + rewrite lookup_insert_eq, lookup_insert_ne by done.
      intros [= <-] Hrb Heq. rewrite Hmk in Heq.
      exfalso. eapply fresh_store_unused; eauto.
    + rewrite lookup_insert_eq, lookup_insert_ne by done.
      intros Hra [= <-] Heq. rewrite Hmk in Heq.
      exfalso. eapply fresh_store_unused; eauto.
    + rewrite !lookup_insert_ne by done. apply Hsep.
Qed.

(** An action that leaves the instances alone and keeps every store in
    the heap keeps the two properties. *)
Lemma same_instances_keep (w w' : world) :
  repos w' = repos w → dom (stores w') = dom (stores w) →
  stores_owned w → stores_separate w →
  stores_owned w' ∧ stores_separate w'.
Proof.
  intros Hr Hd Hown Hsep. split.
  - intros a r. rewrite Hr. intros Ha. apply elem_of_dom. rewrite Hd.
    apply elem_of_dom. eauto.
  - unfold stores_separate. rewrite Hr. exact Hsep.
Qed.

Lemma keeps_ret {A} (a : A) : keeps_instances (mret a).
Proof. by intros w. Qed.

Lemma keeps_bind {A B} (c : M world A) (k : A → M world B) :
  keeps_instances c → (∀ a, keeps_instances (k a)) →
  keeps_instances (c ≫= k).
Proof.
  intros Hc Hk w. specialize (Hc w).
  unfold mbind, M_bind, bind. destruct (c w) as [[a|e] w1]; cbn in *; [|done].
  destruct (Hk a w1) as [-> ->]. done.
Qed.

Lemma keeps_print (line : string) : keeps_instances (print line).
Proof. by intros w. Qed.

Lemma keeps_deref {A} (heap : world → gmap addr A) (a : addr) :
  keeps_instances (deref heap a).
Proof. intros w. unfold deref. by destruct (heap w !! a). Qed.

Lemma keeps_dict_setitem (d : addr) (k : string) (v : value) :
  keeps_instances (dict_setitem d k v).
Proof.
  apply keeps_bind; [apply keeps_deref|]. by intros content w.
Qed.

Lemma keeps_new_dict (content : gmap string value) :
  keeps_instances (new_dict content).
Proof. by intros w. Qed.

(** Writing to a store that is in the heap keeps the set of stores. *)
Lemma keeps_store_update (store : addr)
    (f : gmap value addr → gmap value addr) :
  keeps_instances
    (s ← deref stores store ; modify (set_stores (insert store (f s)))).
Proof.
  intros w. unfold mbind, M_bind, bind, deref.
  destruct (stores w !! store) as [s|] eqn:Hs; cbn; [|done].
  split; [done|]. apply dom_insert_lookup_L. eauto.
Qed.

Lemma keeps_store_setitem (store : addr) (k : value) (data : addr) :
  keeps_instances (store_setitem store k data).
Proof. apply (keeps_store_update store (insert k data)). Qed.

Lemma keeps_store_delitem (store : addr) (k : value) :
  keeps_instances (store_delitem store k).
Proof. apply (keeps_store_update store (delete k)). Qed.

Lemma keeps_store_discard (store : addr) (k : value) :
  keeps_instances (store_discard store k).
Proof.
  apply keeps_bind; [apply keeps_deref|]. intros s.
  destruct (s !! k); [apply keeps_store_delitem | apply keeps_ret].
Qed.

Lemma keeps_store_get (store : addr) (k : value) (d : gmap string value) :
  keeps_instances (store_get store k d).
Proof. apply keeps_bind; [apply keeps_deref|]. intros s. apply keeps_ret. Qed.

Create HintDb keeps discriminated.
#[local] Hint Resolve keeps_ret keeps_print keeps_deref keeps_dict_setitem
  keeps_new_dict keeps_store_setitem keeps_store_delitem keeps_store_discard
  keeps_store_get : keeps.

Ltac keeps_step :=
  first [ solve [auto with keeps]
        | apply keeps_bind; [solve [auto with keeps] | intros ?] ].

Lemma keeps_save (self data : addr) : keeps_instances (save repr self data).
Proof.
  unfold save.
  apply keeps_bind; [apply keeps_deref | intros r].
  apply keeps_bind; [apply keeps_deref | intros content].
  destruct r; repeat keeps_step.
Qed.

Lemma keeps_load (self : addr) (id : value) : keeps_instances (load self id).
Proof.
  unfold load. apply keeps_bind; [apply keeps_deref | intros r].
  destruct r; repeat keeps_step.
Qed.

Lemma keeps_delete (self : addr) (id : value) :
  keeps_instances (delete_ self id).
Proof.
  unfold delete_. apply keeps_bind; [apply keeps_deref | intros r].
  destruct r; repeat keeps_step.
Qed.

Lemma exec_same_instances (w : world) (a : action) :
  match a with
  | ANewDatabase _ | ANewFile _ | ANewCloud _ => True
  | _ => repos (exec repr w a) = repos w
         ∧ dom (stores (exec repr w a)) = dom (stores w)
  end.
Proof.
  destruct a; try exact I; unfold exec.
  - apply (keeps_new_dict content w).
  - apply (keeps_dict_setitem d k v w).
  - apply (keeps_save r d w).
  - apply (keeps_load r id w).
  - apply (keeps_delete r id w).
Qed.

Lemma exec_keeps (w : world) (a : action) :
  stores_owned w ∧ stores_separate w →
  stores_owned (exec repr w a) ∧ stores_separate (exec repr w a).
Proof.
  intros [Hown Hsep].
  pose proof (exec_same_instances w a) as Hsame.
  destruct a; try (by apply (same_instances_keep w); try apply Hsame).
  - by apply (new_instance_keeps w (DatabaseRepository connection_string)).
  - by apply (new_instance_keeps w (FileRepository base_path)).
  - by apply (new_instance_keeps w (CloudRepository cloud_provider)).
Qed.

(** In every heap a program can reach, each repository instance owns a
    store of its own. *)
Lemma run_keeps (program : list action) :
  stores_owned (run repr program) ∧ stores_separate (run repr program).
Proof.
  unfold run. induction program as [|a program IH] using rev_ind.
  - split; intros a r; cbn; by rewrite lookup_empty.
  - rewrite foldl_snoc. by apply exec_keeps.
Qed.

(** [save] leaves the instances and the data dictionaries as they are,
    and writes to no store but the receiver's. *)
Lemma save_frame (self data : addr) (w : world) :
  let w' := (save repr self data w).2 in
  repos w' = repos w
  ∧ dicts w' = dicts w
  ∧ ∀ st, (∀ r, repos w !! self = Some r → st ≠ store_of r) →
          stores w' !! st = stores w !! st.
Proof.
  unfold save; unfold_M.
  destruct (repos w !! self) as [r|] eqn:Hr; cbn; [|done].
  destruct (dicts w !! data) as [content|]; cbn; [|done].
  destruct r as [cs st0|bp st0|cp st0]; cbn;
    (destruct (stores w !! st0) as [s|]; cbn; [|done]);
    (split; [done|]); (split; [done|]);
    intros st Hst; apply lookup_insert_ne; symmetry; by apply (Hst _ eq_refl).
Qed.

(** What [load] returns depends on the receiver and on its store only. *)
Lemma load_result (self : addr) (id : value) (w : world) :
  (load self id w).1 =
  match repos w !! self with
  | None => Raise (Exception SystemError "dangling reference")
  | Some r =>
      match stores w !! store_of r with
      | None => Raise (Exception SystemError "dangling reference")
      | Some s =>
          Return (match s !! store_key r id with
                  | Some a => Ref a
                  | None =>
                      New (default_record id
                             match r with
                             | DatabaseRepository _ _ => "Data from database"
                             | FileRepository _ _ => "Data from file"
                             | CloudRepository _ _ => "Data from cloud"
                             end)
                  end)
      end
  end.
Proof.
  unfold load; unfold_M.
  destruct (repos w !! self) as [r|]; cbn; [|done].
  destruct r as [cs st0|bp st0|cp st0]; cbn;
    by destruct (stores w !! st0) as [s|].
Qed.

(** [save] on a receiver and a dictionary that are in the heap succeeds
    and files the reference under the record's id. *)
Lemma save_result (self data : addr) (w : world)
    (r : DataRepository) (content : gmap string value) (s : gmap value addr) :
  repos w !! self = Some r → dicts w !! data = Some content →
  stores w !! store_of r = Some s →
  (save repr self data w).1 = Return true
  ∧ stores (save repr self data w).2 !! store_of r
    = Some (<[store_key r (dict_get content "id" (VStr "unknown")) := data]> s).
Proof.
  intros Hr Hd Hs. unfold save; unfold_M. rewrite Hr; cbn. rewrite Hd; cbn.
  destruct r as [cs st0|bp st0|cp st0]; cbn in *; rewrite Hs; cbn;
    by rewrite lookup_insert_eq.
Qed.

End Invariant.

(** In the heap of [two_repositories] the record is filed in the file
    repository only. *)
Example record_is_in_one_repository :
  let w := run repr_elided two_repositories in
  (load 2%positive (VStr "product_001") w).1 = Return (Ref 1%positive)
  ∧ (load 1%positive (VStr "product_001") w).1
    = Return (New (default_record (VStr "product_001") "Data from database")).
Proof. split; vm_compute; reflexivity. Qed.

(** C5. No state is shared between repository instances.  In every heap
    a program can reach, for distinct instances [A] and [B] of any of the
    three classes, [A.save(d)] changes nothing that [B] shows: for every
    id, [B.load(id)] returns after the call what it returned before it,
    and the data dictionaries themselves are untouched. *)
Theorem C5_save_does_not_leak_into_other_instances :
  ∀ (repr : gmap string value → string) (program : list action)
    (A B d : addr) (rA rB : DataRepository),
    let w := run repr program in
    repos w !! A = Some rA → repos w !! B = Some rB → A ≠ B →
    store_of rA ≠ store_of rB
    ∧ dicts (save repr A d w).2 = dicts w
    ∧ ∀ id, (load B id (save repr A d w).2).1 = (load B id w).1.
Proof.
  intros repr program A B d rA rB w HA HB Hne.
  destruct (run_keeps repr program) as [Hown Hsep]. fold w in Hown, Hsep.
  assert (store_of rA ≠ store_of rB) as Hst
    by (intros Heq; apply Hne; by apply (Hsep A B rA rB)).
  destruct (save_frame repr A d w) as (Hrepos & Hdicts & Hstores).
  split; [done|]. split; [done|]. intros id.
  rewrite !load_result, Hrepos, HB. rewrite Hstores; [done|].
  intros r Hr. rewrite HA in Hr. injection Hr as <-. by apply not_eq_sym.
Qed.

Lemma C5_witness :
  let w := run repr_elided two_repositories in
  repos w !! 1%positive
  = Some (DatabaseRepository "jdbc:mysql://localhost:3306/mydb" 1%positive)
  ∧ repos w !! 2%positive = Some (FileRepository "/data/files" 2%positive)
  ∧ 1%positive ≠ 2%positive
  ∧ (load 2%positive (VStr "product_001")
       (save repr_elided 1%positive 1%positive w).2).1
    = (load 2%positive (VStr "product_001") w).1.
Proof.
  intros w.
  assert (repos w !! 1%positive
          = Some (DatabaseRepository "jdbc:mysql://localhost:3306/mydb" 1%positive))
    as HA by (vm_compute; reflexivity).
  assert (repos w !! 2%positive = Some (FileRepository "/data/files" 2%positive))
    as HB by (vm_compute; reflexivity).
  assert (1%positive ≠ 2%positive) as Hne by discriminate.
  repeat (split; [done|]).
  apply (C5_save_does_not_leak_into_other_instances repr_elided
           two_repositories 1%positive 2%positive 1%positive _ _ HA HB Hne).
Defined.



End DIP_facts.

(** ** srp_example.py *)

Section SRP_facts.
Import Py SRP.

(** The three registrations of [main]. *)
Example emails_of_main :
  is_valid "ana@ejemplo.com" = true
  ∧ is_valid "juan@ejemplo.com" = true
  ∧ is_valid "email_invalido" = false
  ∧ is_valid "a@b.c" = false.
Proof. repeat split. Qed.

Example invalid_email_is_not_registered :
  register_user (λ p, "md5:" +:+ p) "maria" "email_invalido" "123"
    {| stdout := []; users := [] |}
  = (Return None,
     {| stdout := ["❌ Error al registrar usuario: Email inválido: email_invalido"];
        users := [] |}).
Proof. reflexivity. Qed.


End SRP_facts.

(** ** ocp_example.py *)

Section OCP_facts.
Import Py OCP.

Lemma success_shape (transaction_id : string) :
  dom (success transaction_id) = {[ "status"; "transaction_id" ]}
  ∧ shape (success transaction_id) = payment_shape.
Proof.
  unfold success, shape, payment_shape. split.
  - rewrite !dom_insert_L, dom_empty_L. set_solver.
  - by rewrite !fmap_insert, fmap_empty.
Qed.


(** The holiday discount of [main]: 30 percent off 100. *)
Example black_friday :
  (HolidayDiscount_apply_discount (new_HolidayDiscount "Black Friday" 30) 100
   == 70)%Q.
Proof. reflexivity. Qed.


Lemma fixed_rate_within_price (amount rate : Q) :
  (0 <= amount → 0 <= rate → rate <= 1 → within_price amount (amount * rate))%Q.
Proof. intros Ha H0 H1. split; nra. Qed.




End OCP_facts.

(** ** isp_example.py *)

Section ISP_facts.
Import Py PyClass ISP.

Lemma BadMultiFunctionDevice_defined :
  BadMultiFunctionDevice_stmt = Return BadMultiFunctionDevice
  ∧ __abstractmethods__ BadMultiFunctionDevice
    = {[ "print_document"; "print_color"; "scan_document"; "scan_to_email";
         "send_fax"; "receive_fax"; "copy_document"; "copy_color" ]}.
Proof. split; vm_compute; reflexivity. Qed.

Lemma BadSimplePrinter_defined :
  BadSimplePrinter_stmt = Return BadSimplePrinter
  ∧ (__mro__ BadSimplePrinter).*1
    = ["BadSimplePrinter"; "BadMultiFunctionDevice"; "ABC"]
  ∧ __abstractmethods__ BadSimplePrinter = ∅.
Proof. repeat split; vm_compute; reflexivity. Qed.

(** Every abstract method of the monolithic interface resolves, on the
    interface itself, to an abstract function. *)
Lemma BadMultiFunctionDevice_abstract (method : string) :
  method ∈ __abstractmethods__ BadMultiFunctionDevice →
  is_abstract (getattr (__mro__ BadMultiFunctionDevice) method) = true.
Proof.
  destruct BadMultiFunctionDevice_defined as [_ ->]. intros Hin.
  repeat (apply elem_of_union in Hin as [Hin|Hin]);
    apply elem_of_singleton in Hin as ->; vm_compute; reflexivity.
Qed.

Lemma BadMultiFunctionDevice_linearize :
  linearize [BadMultiFunctionDevice]
  = Some [("BadMultiFunctionDevice", BadMultiFunctionDevice_body); ("ABC", ∅)].
Proof. vm_compute. reflexivity. Qed.

Lemma BadMultiFunctionDevice_mro :
  __mro__ BadMultiFunctionDevice
  = [("BadMultiFunctionDevice", BadMultiFunctionDevice_body); ("ABC", ∅)].
Proof. vm_compute. reflexivity. Qed.

(** A name the body does not define resolves in the inherited classes. *)
Lemma getattr_not_in_body (name : string) (ns : namespace)
    (mro : list entry) (attr : string) :
  ns !! attr = None → getattr ((name, ns) :: mro) attr = getattr mro attr.
Proof. intros Hns. cbn [getattr]. by rewrite Hns. Qed.

(** What a class statement that succeeds has built. *)
Lemma class_statement_inv (name : string) (bases : list class)
    (ns : namespace) (cls : class) :
  class_statement name bases ns = Return cls →
  ∃ inh, linearize bases = Some inh
         ∧ __name__ cls = name ∧ __dict__ cls = ns ∧ inherited cls = inh
         ∧ __abstractmethods__ cls
           = dom (filter (λ kv, __isabstractmethod__ kv.2 = true) ns)
             ∪ filter (λ attr, is_abstract (getattr ((name, ns) :: inh) attr) = true)
                      (⋃ (__abstractmethods__ <$> bases)).
Proof.
  unfold class_statement. destruct (linearize bases) as [inh|]; [|done].
  intros [= <-]. exists inh. done.
Qed.

(** A class with an abstract method left is refused by [object.__new__]:
    no [__init__] and no method body runs. *)
Lemma abstract_class_is_not_instantiated (cls : class) (args : list value)
    (out : list string) :
  __abstractmethods__ cls ≠ ∅ →
  raises (instantiate cls args) out TypeError
  ∧ (instantiate cls args out).2 = out.
Proof.
  intros Hne. unfold raises, instantiate.
  destruct (decide _) as [_|Hempty]; [cbn; eauto | done].
Qed.

(** A segregated interface cannot be instantiated, a class that
    implements it can: [SimplePrinter("HP LaserJet Basic")] of [main]. *)
Example Printer_is_abstract :
  (instantiate Printer [] []).1
  = Raise (Exception TypeError "Can't instantiate abstract class Printer").
Proof. vm_compute. reflexivity. Qed.

Example SimplePrinter_prints :
  let simple := {| __class__ := SimplePrinter;
                   attributes := {[ "model" := VStr "HP LaserJet Basic" ]} |} in
  instantiate SimplePrinter [VStr "HP LaserJet Basic"] [] = (Return simple, [])
  ∧ call "print_document" [VStr "Documento simple"] ([], simple)
    = (Return VNone,
       (["[HP LaserJet Basic] Imprimiendo: Documento simple"], simple)).
Proof. split; vm_compute; reflexivity. Qed.




(** The class statement of [MultiFunctionPrinter] lists [Copier] before
    its subclass [ColorCopier]: no linearisation exists, and the
    statement raises [TypeError] when the script is loaded. *)
Lemma MultiFunctionPrinter_has_no_mro :
  MultiFunctionPrinter_stmt
  = Raise (Exception TypeError
             "Cannot create a consistent method resolution order (MRO)").
Proof. vm_compute. reflexivity. Qed.

End ISP_facts.

(** * Further properties of the scripts *)

(** ** dip_example.py: repositories and services *)

Section DIP_more.
Import Py DIP DIPServices.

Ltac run_heap :=
  unfold process_data, cleanup_data, repr_loaded, dict_getitem,
    save, load, delete_, store_get, store_discard, store_setitem,
    store_delitem, dict_setitem, new_DatabaseRepository, new_FileRepository,
    new_CloudRepository, new_store, new_repo, new_dict, deref, modify, print,
    raise, mbind, mret, M_bind, M_ret, bind, ret, write_line, console_world,
    set_stores, set_repos, set_dicts in *; cbn in *.

Lemma string_length_app (s1 s2 : string) :
  String.length (s1 +:+ s2) = String.length s1 + String.length s2.
Proof.
  induction s1 as [|a s1 IH]; [done|].
  change (S (String.length (s1 +:+ s2)) = S (String.length s1 + String.length s2)).
  by rewrite IH.
Qed.

Lemma string_app_inj_r (s x y : string) : x +:+ s = y +:+ s → x = y.
Proof.
  revert y. induction x as [|a x IH]; intros y Heq.
  - destruct y as [|b y]; [done|]. apply (f_equal String.length) in Heq.
    rewrite !string_length_app in Heq. cbn in Heq. lia.
  - destruct y as [|b y].
    + apply (f_equal String.length) in Heq.
      rewrite !string_length_app in Heq. cbn in Heq. lia.
    + change (String a (x +:+ s) = String b (y +:+ s)) in Heq.
      injection Heq as -> Heq. f_equal. by apply IH.
Qed.

(** Two ids name the same file exactly when they print the same. *)
Lemma filename_eq (base_path : string) (id1 id2 : value) :
  filename base_path id1 = filename base_path id2 ↔ str id1 = str id2.
Proof.
  unfold filename. split; [|by intros ->].
  intros [= Heq]. apply String.app_inj, String.app_inj in Heq.
  by apply string_app_inj_r in Heq.
Qed.

(** [load] reads: it changes the console and nothing else. *)
Lemma load_only_prints (self : addr) (id : value) : only_prints (load self id).
Proof.
  intros w. unfold load; run_heap.
  destruct (repos w !! self) as [r|]; cbn; [|done].
  destruct r as [cs st|bp st|cp st]; cbn; by destruct (stores w !! st).
Qed.

(** [load] is a read that can be repeated: it changes the console and
    nothing else (no data dictionary, no store, no instance), and
    loading the same id again returns the same result, on every heap
    and for every address, also one that is not a repository. *)
Theorem load_is_a_repeatable_read :
  ∀ (self : addr) (id : value) (w : world),
    let w' := (load self id w).2 in
    dicts w' = dicts w ∧ stores w' = stores w ∧ repos w' = repos w
    ∧ (load self id w').1 = (load self id w).1.
Proof.
  intros self id w w'.
  destruct (load_only_prints self id w) as (Hdicts & Hstores & Hrepos).
  repeat (split; [done|]). subst w'.
  unfold load, deref, mbind, M_bind, bind in *.
  rewrite Hrepos.
  destruct (repos w !! self) as [r|]; [|done].
  destruct r as [cs st|bp st|cp st]; run_heap;
    destruct (stores w !! st) as [store|] eqn:Hst; cbn; by rewrite ?Hst.
Qed.

Section Reachable.
Context (repr : gmap string value → string).

(** The heap after [save] on a receiver and a dictionary that are in
    the heap. *)
Lemma save_stores (self data : addr) (w : world)
    (r : DataRepository) (content : gmap string value) (s : gmap value addr) :
  repos w !! self = Some r → dicts w !! data = Some content →
  stores w !! store_of r = Some s →
  stores (save repr self data w).2
  = <[store_of r :=
        <[store_key r (dict_get content "id" (VStr "unknown")) := data]> s]>
      (stores w).
Proof.
  intros Hr Hd Hs. unfold save; run_heap. rewrite Hr; cbn. rewrite Hd; cbn.
  destruct r as [cs st0|bp st0|cp st0]; cbn in *; by rewrite Hs.
Qed.

(** What [delete] does on a receiver that is in the heap. *)
Lemma delete_result (self : addr) (id : value) (w : world)
    (r : DataRepository) (s : gmap value addr) :
  repos w !! self = Some r → stores w !! store_of r = Some s →
  (delete_ self id w).1 = Return true
  ∧ repos (delete_ self id w).2 = repos w
  ∧ dicts (delete_ self id w).2 = dicts w
  ∧ stores (delete_ self id w).2
    = <[store_of r := delete (store_key r id) s]> (stores w).
Proof.
  intros Hr Hs. unfold delete_; run_heap. rewrite Hr; cbn.
  destruct r as [cs st0|bp st0|cp st0]; cbn in *; rewrite Hs; cbn;
    match goal with
    | |- context [s !! ?k] => destruct (s !! k) eqn:Hk; cbn; rewrite ?Hs; cbn
    end;
    repeat split; try done;
    by rewrite delete_id, insert_id.
Qed.

Lemma run_snoc (program : list action) (a : action) :
  run repr (program ++ [a]) = exec repr (run repr program) a.
Proof. unfold run. by rewrite foldl_snoc. Qed.

Lemma store_key_eq (r : DataRepository) (id1 id2 : value) :
  store_key r id1 = store_key r id2 ↔ same_key r id1 id2.
Proof. destruct r; cbn; [done| apply filename_eq |done]. Qed.

Lemma load_placeholder (self : addr) (id : value) (w : world) :
  (load self id w).1 =
  match repos w !! self with
  | None => Raise (Exception SystemError "dangling reference")
  | Some r =>
      match stores w !! store_of r with
      | None => Raise (Exception SystemError "dangling reference")
      | Some s =>
          Return (match s !! store_key r id with
                  | Some a => Ref a
                  | None => New (placeholder r id)
                  end)
      end
  end.
Proof. rewrite load_result. by destruct (repos w !! self) as [[]|]. Qed.

Lemma save_then_load_same_key (program : list action) (r d : addr)
    (rr : DataRepository) (content : gmap string value) (id : value) :
  let w := run repr program in
  repos w !! r = Some rr → dicts w !! d = Some content →
  same_key rr id (data_id content) →
  (load r id (save repr r d w).2).1 = Return (Ref d).
Proof.
  intros w Hr Hd Hkey.
  destruct (run_keeps repr program) as [Hown _]. fold w in Hown.
  destruct (Hown r rr Hr) as [s Hs].
  destruct (save_frame repr r d w) as (Hrepos & _ & _).
  rewrite load_placeholder, Hrepos, Hr.
  rewrite (save_stores r d w rr content s Hr Hd Hs), lookup_insert_eq.
  apply store_key_eq in Hkey. rewrite Hkey. unfold data_id.
  by rewrite lookup_insert_eq.
Qed.

(** [save] files the record under [data.get('id', 'unknown')]: after
    [r.save(d)], [r.load(id)] returns [d] itself for every id that names
    the same key — the same id for a database or cloud repository, an id
    that prints the same for a file repository, where the key is the file
    name built from the id. *)
Theorem save_files_under_every_id_of_the_same_key :
  ∀ (program : list action) (r d : addr) (rr : DataRepository)
    (content : gmap string value) (id : value),
    let w := run repr program in
    repos w !! r = Some rr → dicts w !! d = Some content →
    same_key rr id (data_id content) →
    (load r id (save repr r d w).2).1 = Return (Ref d).
Proof.
  intros program r d rr content id w Hr Hd Hkey.
  by apply (save_then_load_same_key program r d rr content id).
Qed.

(** [save] leaves what is filed under every other key of the receiver
    as it is. *)
Theorem save_keeps_the_other_records :
  ∀ (program : list action) (r d : addr) (rr : DataRepository)
    (content : gmap string value) (id : value),
    let w := run repr program in
    repos w !! r = Some rr → dicts w !! d = Some content →
    ¬ same_key rr id (data_id content) →
    (load r id (save repr r d w).2).1 = (load r id w).1.
Proof.
  intros program r d rr content id w Hr Hd Hkey.
  destruct (run_keeps repr program) as [Hown _]. fold w in Hown.
  destruct (Hown r rr Hr) as [s Hs].
  destruct (save_frame repr r d w) as (Hrepos & _ & _).
  rewrite !load_placeholder, Hrepos, Hr, Hs.
  rewrite (save_stores r d w rr content s Hr Hd Hs), lookup_insert_eq.
  rewrite lookup_insert_ne; [done|].
  intros Heq. apply Hkey. by apply store_key_eq.
Qed.

(** Records without the key ['id'] share the id ['unknown']: of two such
    records saved one after the other, [load('unknown')] returns the
    second. *)
Theorem records_without_id_overwrite_each_other :
  ∀ (program : list action) (r d1 d2 : addr)
    (content1 content2 : gmap string value),
    let w := run repr program in
    is_Some (repos w !! r) →
    dicts w !! d1 = Some content1 → content1 !! "id" = None →
    dicts w !! d2 = Some content2 → content2 !! "id" = None →
    (load r (VStr "unknown") (save repr r d1 w).2).1 = Return (Ref d1)
    ∧ (load r (VStr "unknown") (save repr r d2 (save repr r d1 w).2).2).1
      = Return (Ref d2).
Proof.
  intros program r d1 d2 content1 content2 w [rr Hr] Hd1 Hid1 Hd2 Hid2.
  assert (∀ content, content !! "id" = None →
                     same_key rr (VStr "unknown") (data_id content)) as Hkey.
  { intros content Hid. unfold data_id, dict_get. rewrite Hid. by destruct rr. }
  split.
  - by apply (save_then_load_same_key program r d1 rr content1); auto.
  - destruct (save_frame repr r d1 w) as (Hrepos & Hdicts & _).
    assert ((save repr r d1 w).2 = run repr (program ++ [ASave r d1])) as Hrun
      by (by rewrite run_snoc).
    rewrite Hrun in *.
    apply (save_then_load_same_key (program ++ [ASave r d1]) r d2 rr content2);
      auto.
    + by rewrite Hrepos.
    + by rewrite Hdicts.
Qed.

(** After [r.delete(id)], whatever was filed under [id] is gone:
    [delete] returns [True] and [r.load(id)] returns the made-up record
    [{'id': id, 'data': 'Data from ...'}], a new dictionary; the deleted
    data dictionary itself is untouched. *)
Theorem delete_then_load_returns_the_placeholder :
  ∀ (program : list action) (r : addr) (rr : DataRepository) (id : value),
    let w := run repr program in
    repos w !! r = Some rr →
    (delete_ r id w).1 = Return true
    ∧ dicts (delete_ r id w).2 = dicts w
    ∧ (load r id (delete_ r id w).2).1 = Return (New (placeholder rr id)).
Proof.
  intros program r rr id w Hr.
  destruct (run_keeps repr program) as [Hown _]. fold w in Hown.
  destruct (Hown r rr Hr) as [s Hs].
  destruct (delete_result r id w rr s Hr Hs) as (Hret & Hrepos & Hdicts & Hst).
  split; [done|]. split; [done|].
  by rewrite load_placeholder, Hrepos, Hr, Hst, lookup_insert_eq, lookup_delete_eq.
Qed.

(** [delete] of an id under which nothing is filed — [load] returns a
    made-up record for it — returns [True] and changes nothing in the
    heap: no error is reported for the missing id. *)
Theorem delete_of_a_missing_id_changes_nothing :
  ∀ (program : list action) (r : addr) (id : value)
    (made_up : gmap string value),
    let w := run repr program in
    (load r id w).1 = Return (New made_up) →
    (delete_ r id w).1 = Return true
    ∧ dicts (delete_ r id w).2 = dicts w
    ∧ stores (delete_ r id w).2 = stores w
    ∧ repos (delete_ r id w).2 = repos w.
Proof.
  intros program r id made_up w Hload.
  rewrite load_placeholder in Hload.
  destruct (repos w !! r) as [rr|] eqn:Hr; [|done].
  destruct (stores w !! store_of rr) as [s|] eqn:Hs; [|done].
  destruct (s !! store_key rr id) eqn:Hk; [done|].
  destruct (delete_result r id w rr s Hr Hs) as (Hret & Hrepos & Hdicts & Hst).
  repeat (split; [done|]). split; [|done].
  by rewrite Hst, delete_id, insert_id.
Qed.

(** [delete] on one instance leaves every other instance as it is: for
    distinct instances [A] and [B], [B.load(id')] returns after
    [A.delete(id)] what it returned before. *)
Theorem delete_does_not_leak_into_other_instances :
  ∀ (program : list action) (A B : addr) (rA rB : DataRepository)
    (id id' : value),
    let w := run repr program in
    repos w !! A = Some rA → repos w !! B = Some rB → A ≠ B →
    (load B id' (delete_ A id w).2).1 = (load B id' w).1.
Proof.
  intros program A B rA rB id id' w HA HB Hne.
  destruct (run_keeps repr program) as [Hown Hsep]. fold w in Hown, Hsep.
  destruct (Hown A rA HA) as [s Hs].
  destruct (delete_result A id w rA s HA Hs) as (_ & Hrepos & _ & Hst).
  rewrite !load_placeholder, Hrepos, HB, Hst.
  rewrite lookup_insert_ne; [done|].
  intros Heq. apply Hne. by apply (Hsep A B rA rB).
Qed.

(** A repository starts empty: right after any of the three
    constructors, in any heap, [load] on the new instance returns the
    made-up record for every id. *)
Theorem new_repository_is_empty :
  ∀ (w : world) (config : string) (id : value),
    (∃ r, (new_DatabaseRepository config w).1 = Return r
          ∧ (load r id (new_DatabaseRepository config w).2).1
            = Return (New (default_record id "Data from database")))
    ∧ (∃ r, (new_FileRepository config w).1 = Return r
            ∧ (load r id (new_FileRepository config w).2).1
              = Return (New (default_record id "Data from file")))
    ∧ (∃ r, (new_CloudRepository config w).1 = Return r
            ∧ (load r id (new_CloudRepository config w).2).1
              = Return (New (default_record id "Data from cloud"))).
Proof.
  intros w config id.
  split; [|split]; eexists; (split; [reflexivity|]);
    rewrite load_result; run_heap;
    by rewrite !lookup_insert_eq, lookup_empty.
Qed.

Lemma bind_unfold {S A B} (c : M S A) (k : A → M S B) (s : S) :
  (c ≫= k) s = match c s with
               | (Return a, s') => k a s'
               | (Raise e, s') => (Raise e, s')
               end.
Proof. reflexivity. Qed.

(** What [load] returns in a heap with the instances and stores of the
    heap reached by a [save]. *)
Lemma load_after_save (w w' : world) (r d : addr) (rr : DataRepository)
    (content : gmap string value) (s : gmap value addr) (id : value) :
  repos w !! r = Some rr → dicts w !! d = Some content →
  stores w !! store_of rr = Some s →
  repos w' = repos (save repr r d w).2 →
  stores w' = stores (save repr r d w).2 →
  same_key rr id (data_id content) →
  (load r id w').1 = Return (Ref d).
Proof.
  intros Hr Hd Hs Hrepos Hstores Hkey.
  destruct (save_frame repr r d w) as (Hrepos' & _ & _).
  rewrite load_placeholder, Hrepos, Hrepos', Hr, Hstores.
  rewrite (save_stores r d w rr content s Hr Hd Hs), lookup_insert_eq.
  apply store_key_eq in Hkey. rewrite Hkey. unfold data_id.
  by rewrite lookup_insert_eq.
Qed.

(** The run of [process_data] on a receiver and a record that are in
    the heap: the state it ends in, and what it returns. *)
Lemma process_data_run (w : world) (r d : addr) (rr : DataRepository)
    (content : gmap string value) (s : gmap value addr) :
  repos w !! r = Some rr → dicts w !! d = Some content →
  stores w !! store_of rr = Some s →
  let w1 := write_line ("Procesando datos con " +:+ get_repository_type rr
                        +:+ "...") w in
  let w2 := (save repr r d w1).2 in
  process_data repr {| repository := r |} d w
  = match content !! "id" with
    | Some id =>
        (Return true,
         write_line ("Datos verificados: " +:+ repr content) (load r id w2).2)
    | None => (Raise (Exception KeyError "id"), w2)
    end.
Proof.
  intros Hr Hd Hs w1 w2.
  assert (repos w1 !! r = Some rr) as Hr1 by done.
  assert (dicts w1 !! d = Some content) as Hd1 by done.
  assert (stores w1 !! store_of rr = Some s) as Hs1 by done.
  destruct (save_result repr r d w1 rr content s Hr1 Hd1 Hs1) as [Hret _].
  destruct (save_frame repr r d w1) as (Hrepos2 & Hdicts2 & _).
  fold w2 in Hrepos2, Hdicts2.
  unfold process_data; cbn [repository].
  rewrite bind_unfold. unfold deref at 1. rewrite Hr.
  rewrite bind_unfold. unfold print at 1. fold w1.
  rewrite bind_unfold.
  destruct (save repr r d w1) as [res w2'] eqn:Hsave.
  cbn in Hret. subst res. subst w2. cbn [snd] in *.
  rewrite bind_unfold, bind_unfold. unfold deref at 1. rewrite Hdicts2, Hd1.
  rewrite bind_unfold. unfold dict_getitem.
  destruct (content !! "id") as [id|] eqn:Hid; [|done].
  cbn [mret M_ret ret]. rewrite bind_unfold.
  assert (same_key rr id (data_id content)) as Hkey.
  { unfold data_id, dict_get. rewrite Hid. by destruct rr. }
  pose proof (load_after_save w1 w2' r d rr content s id Hr1 Hd1 Hs1) as Hload.
  rewrite Hsave in Hload. specialize (Hload eq_refl eq_refl Hkey).
  destruct (load_only_prints r id w2') as (Hdicts3 & _ & _).
  destruct (load r id w2') as [res w3] eqn:Hl. cbn in Hload, Hdicts3. subst res.
  rewrite bind_unfold. unfold repr_loaded. rewrite bind_unfold.
  unfold deref at 1. rewrite Hdicts3, Hdicts2, Hd1. done.
Qed.

(** [process_data] on a record that has an ['id']: it returns [True],
    the record is filed (a later [load] of its id returns it), and no
    data dictionary is changed. *)
Theorem process_data_files_the_record :
  ∀ (program : list action) (service : DataService) (d : addr)
    (content : gmap string value) (id : value),
    let w := run repr program in
    is_Some (repos w !! repository service) →
    dicts w !! d = Some content → content !! "id" = Some id →
    (process_data repr service d w).1 = Return true
    ∧ dicts (process_data repr service d w).2 = dicts w
    ∧ (load (repository service) id (process_data repr service d w).2).1
      = Return (Ref d).
Proof.
  intros program [r] d content id w [rr Hr] Hd Hid. cbn in Hr.
  destruct (run_keeps repr program) as [Hown _]. fold w in Hown.
  destruct (Hown r rr Hr) as [s Hs].
  rewrite (process_data_run w r d rr content s Hr Hd Hs), Hid. cbn [fst snd repository].
  set (w1 := write_line _ w).
  destruct (save_frame repr r d w1) as (_ & Hdicts2 & _).
  destruct (load_only_prints r id (save repr r d w1).2)
    as (Hdicts3 & Hstores3 & Hrepos3).
  split; [done|]. split.
  { change (dicts (load r id (save repr r d w1).2).2 = dicts w).
    by rewrite Hdicts3, Hdicts2. }
  assert (same_key rr id (data_id content)) as Hkey.
  { unfold data_id, dict_get. rewrite Hid. by destruct rr. }
  by apply (load_after_save w1 _ r d rr content s id).
Qed.

(** [process_data] on a record without ['id'] is not all-or-nothing:
    [save] has filed the record under ['unknown'] when [data['id']]
    raises [KeyError], so the call fails and the record stays filed. *)
Theorem process_data_without_id_fails_after_saving :
  ∀ (program : list action) (service : DataService) (d : addr)
    (content : gmap string value),
    let w := run repr program in
    is_Some (repos w !! repository service) →
    dicts w !! d = Some content → content !! "id" = None →
    (process_data repr service d w).1 = Raise (Exception KeyError "id")
    ∧ (load (repository service) (VStr "unknown")
         (process_data repr service d w).2).1
      = Return (Ref d).
Proof.
  intros program [r] d content w [rr Hr] Hd Hid. cbn in Hr.
  destruct (run_keeps repr program) as [Hown _]. fold w in Hown.
  destruct (Hown r rr Hr) as [s Hs].
  rewrite (process_data_run w r d rr content s Hr Hd Hs), Hid. cbn [fst snd repository].
  split; [done|].
  assert (same_key rr (VStr "unknown") (data_id content)) as Hkey.
  { unfold data_id, dict_get. rewrite Hid. by destruct rr. }
  set (w1 := write_line _ w).
  by apply (load_after_save w1 _ r d rr content s (VStr "unknown")).
Qed.

(** [cleanup_data] undoes [process_data]: after [process_data] on a
    record with an ['id'] and [cleanup_data] of that id, [load] of the id
    returns the made-up record again. *)
Theorem cleanup_data_undoes_process_data :
  ∀ (program : list action) (service : DataService) (rr : DataRepository)
    (d : addr) (content : gmap string value) (id : value),
    let w := run repr program in
    repos w !! repository service = Some rr →
    dicts w !! d = Some content → content !! "id" = Some id →
    let w' := (process_data repr service d w).2 in
    (cleanup_data service id w').1 = Return true
    ∧ (load (repository service) id (cleanup_data service id w').2).1
      = Return (New (placeholder rr id)).
Proof.
  intros program [r] rr d content id w Hr Hd Hid w'. cbn in Hr.
  destruct (run_keeps repr program) as [Hown _]. fold w in Hown.
  destruct (Hown r rr Hr) as [s Hs].
  assert (repos w' !! r = Some rr ∧ is_Some (stores w' !! store_of rr))
    as [Hr' [s' Hs']].
  { unfold w'. rewrite (process_data_run w r d rr content s Hr Hd Hs), Hid.
    set (w1 := write_line _ w).
    assert (repos w1 !! r = Some rr) as Hr1 by done.
    assert (dicts w1 !! d = Some content) as Hd1 by done.
    assert (stores w1 !! store_of rr = Some s) as Hs1 by done.
    destruct (save_frame repr r d w1) as (Hrepos2 & _ & _).
    destruct (load_only_prints r id (save repr r d w1).2)
      as (_ & Hstores3 & Hrepos3).
    change (repos (load r id (save repr r d w1).2).2 !! r = Some rr
            ∧ is_Some (stores (load r id (save repr r d w1).2).2
                       !! store_of rr)).
    rewrite Hrepos3, Hrepos2, Hstores3.
    rewrite (save_stores r d w1 rr content s Hr1 Hd1 Hs1), lookup_insert_eq.
    eauto. }
  set (w1 := write_line ("Limpiando datos con " +:+ get_repository_type rr
                         +:+ "...") w').
  assert (cleanup_data {| repository := r |} id w' = delete_ r id w1) as ->.
  { unfold cleanup_data; cbn [repository].
    rewrite bind_unfold. unfold deref at 1. by rewrite Hr'. }
  assert (repos w1 !! r = Some rr) as Hr1 by done.
  assert (stores w1 !! store_of rr = Some s') as Hs1 by done.
  destruct (delete_result r id w1 rr s' Hr1 Hs1) as (Hret & Hrepos & _ & Hst).
  split; [done|]. cbn [repository].
  by rewrite load_placeholder, Hrepos, Hr1, Hst, lookup_insert_eq, lookup_delete_eq.
Qed.

End Reachable.

(** One call of [log] by a logger that can write: it returns, leaves the
    heap objects alone and adds its entry to a [FileLogger]'s list. *)
Lemma log_run (l : Logger) (level message : string) (s : app_world) :
  logger_ready l s →
  ∃ s', log l level message s = (Return (), s')
        ∧ same_objects s s' ∧ logger_ready l s'
        ∧ entries l s' = entries l s ++ logged l level message.
Proof.
  destruct l as [|filename logs]; cbn; intros Hready.
  - eexists. split; [reflexivity|]. done.
  - destruct Hready as [entries Hl].
    unfold log. rewrite bind_unfold. unfold logs_append. rewrite Hl.
    eexists. split; [reflexivity|]. cbn.
    rewrite lookup_insert_eq. repeat split; eauto.
Qed.

(** [send_notification] inside an application: it returns [True] and
    touches neither the heap objects nor the loggers' lists. *)
Lemma send_notification_run (service : NotificationService)
    (message recipient : string) (s : app_world) :
  ∃ s', send_notification service message recipient s = (Return true, s')
        ∧ same_objects s s' ∧ log_lists s' = log_lists s.
Proof.
  destruct service as [[smtp|provider| |platform]];
    (eexists; split; [reflexivity|done]).
Qed.

Lemma Application_run_result (repr : gmap string value → string)
    (program : list action) (l : Logger) (r : addr) (rr : DataRepository)
    (ns : NotificationService) (s : app_world) :
  heap s = run repr program → repos (heap s) !! r = Some rr →
  logger_ready l s →
  let app := {| logger := l; data_service := {| repository := r |};
                notification_service := ns |} in
  let user_data := fresh (dom (dicts (heap s))) in
  ∃ s', Application_run repr app s = (Return (), s')
        ∧ entries l s'
          = entries l s
            ++ logged l "INFO" "Aplicación iniciada"
            ++ logged l "INFO" "Datos procesados exitosamente"
            ++ logged l "INFO" "Aplicación finalizada"
        ∧ dicts (heap s') !! user_data = Some user_data_literal
        ∧ (load r (VStr "user_001") (heap s')).1 = Return (Ref user_data).
Proof.
  intros Hheap Hr Hready app user_data. subst app.
  destruct (run_keeps repr program) as [Hown _]. rewrite <- Hheap in Hown.
  destruct (Hown r rr Hr) as [st Hst].
  unfold Application_run.
  cbn [logger data_service notification_service].
  (* the first entry *)
  destruct (log_run l "INFO" "Aplicación iniciada" s Hready)
    as (s1 & Hlog1 & (Hd1 & Hs1 & Hr1) & Hready1 & Hent1).
  rewrite bind_unfold, Hlog1.
  (* the dictionary literal *)
  rewrite bind_unfold. unfold on_heap at 1, new_dict. rewrite Hd1. fold user_data.
  set (w2 := set_dicts (insert user_data user_data_literal) (heap s1)).
  assert (repos w2 !! r = Some rr) as Hr2 by (cbn; by rewrite Hr1).
  assert (dicts w2 !! user_data = Some user_data_literal) as Hd2
    by (cbn; by rewrite lookup_insert_eq).
  assert (stores w2 !! store_of rr = Some st) as Hs2 by (cbn; by rewrite Hs1).
  (* process_data *)
  rewrite bind_unfold. unfold on_heap at 1. cbn [heap log_lists].
  pose proof (process_data_run repr w2 r user_data rr user_data_literal st
                Hr2 Hd2 Hs2) as Hrun.
  cbn zeta in Hrun.
  change (user_data_literal !! "id") with (Some (VStr "user_001")) in Hrun.
  rewrite Hrun. clear Hrun.
  set (w2' := write_line _ w2) in *.
  assert (repos w2' !! r = Some rr) as Hr2' by done.
  assert (dicts w2' !! user_data = Some user_data_literal) as Hd2' by done.
  assert (stores w2' !! store_of rr = Some st) as Hs2' by done.
  destruct (save_frame repr r user_data w2') as (Hrepos3 & Hdicts3 & _).
  destruct (load_only_prints r (VStr "user_001") (save repr r user_data w2').2)
    as (Hdicts4 & Hstores4 & Hrepos4).
  set (w4 := write_line _ (load r (VStr "user_001") (save repr r user_data w2').2).2).
  assert (dicts w4 !! user_data = Some user_data_literal) as Hd4.
  { change (dicts (load r (VStr "user_001") (save repr r user_data w2').2).2
            !! user_data = Some user_data_literal).
    by rewrite Hdicts4, Hdicts3. }
  assert ((load r (VStr "user_001") w4).1 = Return (Ref user_data)) as Hload4.
  { apply (load_after_save repr w2' w4 r user_data rr user_data_literal st
             (VStr "user_001") Hr2' Hd2' Hs2' Hrepos4 Hstores4).
    by destruct rr. }
  set (s4 := {| heap := w4; log_lists := log_lists s1 |}).
  assert (logger_ready l s4) as Hready4 by (by destruct l).
  assert (entries l s4 = entries l s1) as Hent4 by (by destruct l).
  (* the second entry *)
  rewrite bind_unfold.
  destruct (log_run l "INFO" "Datos procesados exitosamente" s4 Hready4)
    as ([w5 l5] & Hlog5 & (Hd5 & Hs5 & Hr5) & Hready5 & Hent5).
  cbn [heap log_lists] in *. change (heap s4) with w4 in *.
  rewrite bind_unfold, Hlog5.
  rewrite bind_unfold. unfold on_heap at 1, deref. cbn [heap log_lists].
  rewrite Hd5, Hd4.
  rewrite bind_unfold. unfold dict_getitem.
  change (user_data_literal !! "email") with (Some (VStr "ana@ejemplo.com")).
  cbn [mret M_ret ret].
  destruct (send_notification_run ns "Tu cuenta ha sido creada exitosamente"
              (str (VStr "ana@ejemplo.com"))
              {| heap := w5; log_lists := l5 |})
    as (s6 & Hsend & (Hd6 & Hs6 & Hr6) & Hlogs6).
  cbn [heap log_lists] in *.
  rewrite bind_unfold, Hsend. cbn [mret M_ret ret].
  assert (logger_ready l s6) as Hready6 by (destruct l; cbn in *; congruence).
  assert (entries l s6 = entries l {| heap := w5; log_lists := l5 |}) as Hent6
    by (destruct l; cbn in *; congruence).
  (* the last entry *)
  destruct (log_run l "INFO" "Aplicación finalizada" s6 Hready6)
    as (s7 & Hlog7 & (Hd7 & Hs7 & Hr7) & Hready7 & Hent7).
  rewrite Hlog7. exists s7. split; [done|]. split.
  { rewrite Hent7, Hent6, Hent5, Hent4, Hent1. by rewrite <- !app_assoc. }
  split.
  { by rewrite Hd7, Hd6, Hd5. }
  rewrite load_placeholder, Hr7, Hr6, Hr5, Hs7, Hs6, Hs5.
  by rewrite load_placeholder in Hload4.
Qed.


Lemma save_files_under_every_id_of_the_same_key_witness :
  let w := run repr_elided mixed_records in
  repos w !! 2%positive = Some (FileRepository "/data/files" 2%positive)
  ∧ dicts w !! 1%positive = Some (<["id" := VInt 5]> ∅)
  ∧ same_key (FileRepository "/data/files" 2%positive) (VStr "5")
      (data_id (<["id" := VInt 5]> ∅))
  ∧ (load 2%positive (VStr "5")
       (save repr_elided 2%positive 1%positive w).2).1
    = Return (Ref 1%positive).
Proof.
  intros w.
  assert (repos w !! 2%positive = Some (FileRepository "/data/files" 2%positive))
    as Hr by (vm_compute; reflexivity).
  assert (dicts w !! 1%positive = Some (<["id" := VInt 5]> ∅)) as Hd
    by (vm_compute; reflexivity).
  assert (same_key (FileRepository "/data/files" 2%positive) (VStr "5")
            (data_id (<["id" := VInt 5]> ∅))) as Hkey
    by (vm_compute; reflexivity).
  repeat (split; [done|]).
  apply (save_files_under_every_id_of_the_same_key repr_elided mixed_records
           2%positive 1%positive _ _ (VStr "5") Hr Hd Hkey).
Defined.

Lemma save_keeps_the_other_records_witness :
  let w := run repr_elided mixed_records in
  repos w !! 1%positive
  = Some (DatabaseRepository "jdbc:mysql://localhost:3306/mydb" 1%positive)
  ∧ dicts w !! 1%positive = Some (<["id" := VInt 5]> ∅)
  ∧ ¬ same_key (DatabaseRepository "jdbc:mysql://localhost:3306/mydb" 1%positive)
        (VStr "5") (data_id (<["id" := VInt 5]> ∅))
  ∧ (load 1%positive (VStr "5")
       (save repr_elided 1%positive 1%positive w).2).1
    = (load 1%positive (VStr "5") w).1.
Proof.
  intros w.
  assert (repos w !! 1%positive
          = Some (DatabaseRepository "jdbc:mysql://localhost:3306/mydb" 1%positive))
    as Hr by (vm_compute; reflexivity).
  assert (dicts w !! 1%positive = Some (<["id" := VInt 5]> ∅)) as Hd
    by (vm_compute; reflexivity).
  assert (¬ same_key (DatabaseRepository "jdbc:mysql://localhost:3306/mydb" 1%positive)
            (VStr "5") (data_id (<["id" := VInt 5]> ∅))) as Hkey
    by (vm_compute; discriminate).
  repeat (split; [done|]).
  apply (save_keeps_the_other_records repr_elided mixed_records
           1%positive 1%positive _ _ (VStr "5") Hr Hd Hkey).
Defined.

Lemma records_without_id_overwrite_each_other_witness :
  let w := run repr_elided mixed_records in
  is_Some (repos w !! 1%positive)
  ∧ dicts w !! 2%positive = Some (<["name" := VStr "Laptop"]> ∅)
  ∧ (<["name" := VStr "Laptop"]> ∅ : gmap string value) !! "id" = None
  ∧ dicts w !! 3%positive = Some (<["name" := VStr "Mouse"]> ∅)
  ∧ (<["name" := VStr "Mouse"]> ∅ : gmap string value) !! "id" = None
  ∧ (load 1%positive (VStr "unknown")
       (save repr_elided 1%positive 3%positive
          (save repr_elided 1%positive 2%positive w).2).2).1
    = Return (Ref 3%positive).
Proof.
  intros w.
  assert (is_Some (repos w !! 1%positive)) as Hr by (vm_compute; eauto).
  assert (dicts w !! 2%positive = Some (<["name" := VStr "Laptop"]> ∅)) as Hd1
    by (vm_compute; reflexivity).
  assert ((<["name" := VStr "Laptop"]> ∅ : gmap string value) !! "id" = None)
    as Hid1 by (vm_compute; reflexivity).
  assert (dicts w !! 3%positive = Some (<["name" := VStr "Mouse"]> ∅)) as Hd2
    by (vm_compute; reflexivity).
  assert ((<["name" := VStr "Mouse"]> ∅ : gmap string value) !! "id" = None)
    as Hid2 by (vm_compute; reflexivity).
  repeat (split; [done|]).
  apply (records_without_id_overwrite_each_other repr_elided mixed_records
           1%positive 2%positive 3%positive _ _ Hr Hd1 Hid1 Hd2 Hid2).
Defined.

Lemma delete_then_load_returns_the_placeholder_witness :
  let w := run repr_elided two_repositories in
  repos w !! 2%positive = Some (FileRepository "/data/files" 2%positive)
  ∧ (load 2%positive (VStr "product_001") w).1 = Return (Ref 1%positive)
  ∧ (load 2%positive (VStr "product_001")
       (delete_ 2%positive (VStr "product_001") w).2).1
    = Return (New (default_record (VStr "product_001") "Data from file")).
Proof.
  intros w.
  assert (repos w !! 2%positive = Some (FileRepository "/data/files" 2%positive))
    as Hr by (vm_compute; reflexivity).
  split; [done|]. split; [vm_compute; reflexivity|].
  apply (delete_then_load_returns_the_placeholder repr_elided two_repositories
           2%positive _ (VStr "product_001") Hr).
Defined.

Lemma delete_of_a_missing_id_changes_nothing_witness :
  let w := run repr_elided two_repositories in
  (load 1%positive (VStr "product_001") w).1
  = Return (New (default_record (VStr "product_001") "Data from database"))
  ∧ (delete_ 1%positive (VStr "product_001") w).1 = Return true
  ∧ stores (delete_ 1%positive (VStr "product_001") w).2 = stores w.
Proof.
  intros w.
  assert ((load 1%positive (VStr "product_001") w).1
          = Return (New (default_record (VStr "product_001") "Data from database")))
    as Hload by (vm_compute; reflexivity).
  split; [done|].
  destruct (delete_of_a_missing_id_changes_nothing repr_elided two_repositories
              1%positive (VStr "product_001") _ Hload) as (Hret & _ & Hst & _).
  by split.
Defined.

Lemma delete_does_not_leak_into_other_instances_witness :
  let w := run repr_elided two_repositories in
  repos w !! 1%positive
  = Some (DatabaseRepository "jdbc:mysql://localhost:3306/mydb" 1%positive)
  ∧ repos w !! 2%positive = Some (FileRepository "/data/files" 2%positive)
  ∧ 1%positive ≠ 2%positive
  ∧ (load 2%positive (VStr "product_001")
       (delete_ 1%positive (VStr "product_001") w).2).1
    = (load 2%positive (VStr "product_001") w).1.
Proof.
  intros w.
  assert (repos w !! 1%positive
          = Some (DatabaseRepository "jdbc:mysql://localhost:3306/mydb" 1%positive))
    as HA by (vm_compute; reflexivity).
  assert (repos w !! 2%positive = Some (FileRepository "/data/files" 2%positive))
    as HB by (vm_compute; reflexivity).
  assert (1%positive ≠ 2%positive) as Hne by discriminate.
  repeat (split; [done|]).
  apply (delete_does_not_leak_into_other_instances repr_elided two_repositories
           1%positive 2%positive _ _ (VStr "product_001") (VStr "product_001")
           HA HB Hne).
Defined.

Lemma process_data_files_the_record_witness :
  let w := run repr_elided two_repositories in
  let content : gmap string value :=
    <["id" := VStr "product_001"]> (<["name" := VStr "Laptop"]> ∅) in
  is_Some (repos w !! 1%positive)
  ∧ dicts w !! 1%positive = Some content
  ∧ content !! "id" = Some (VStr "product_001")
  ∧ (process_data repr_elided {| repository := 1%positive |} 1%positive w).1
    = Return true.
Proof.
  intros w content.
  assert (is_Some (repos w !! repository {| repository := 1%positive |})) as Hr
    by (vm_compute; eauto).
  assert (dicts w !! 1%positive = Some content) as Hd
    by (vm_compute; reflexivity).
  assert (content !! "id" = Some (VStr "product_001")) as Hid
    by (vm_compute; reflexivity).
  repeat (split; [done|]).
  apply (process_data_files_the_record repr_elided two_repositories
           {| repository := 1%positive |} 1%positive content _ Hr Hd Hid).
Defined.

Lemma process_data_without_id_fails_after_saving_witness :
  let w := run repr_elided mixed_records in
  is_Some (repos w !! 1%positive)
  ∧ dicts w !! 2%positive = Some (<["name" := VStr "Laptop"]> ∅)
  ∧ (<["name" := VStr "Laptop"]> ∅ : gmap string value) !! "id" = None
  ∧ (process_data repr_elided {| repository := 1%positive |} 2%positive w).1
    = Raise (Exception KeyError "id")
  ∧ (load 1%positive (VStr "unknown")
       (process_data repr_elided {| repository := 1%positive |} 2%positive w).2).1
    = Return (Ref 2%positive).
Proof.
  intros w.
  assert (is_Some (repos w !! repository {| repository := 1%positive |})) as Hr
    by (vm_compute; eauto).
  assert (dicts w !! 2%positive = Some (<["name" := VStr "Laptop"]> ∅)) as Hd
    by (vm_compute; reflexivity).
  assert ((<["name" := VStr "Laptop"]> ∅ : gmap string value) !! "id" = None)
    as Hid by (vm_compute; reflexivity).
  repeat (split; [done|]).
  apply (process_data_without_id_fails_after_saving repr_elided mixed_records
           {| repository := 1%positive |} 2%positive _ Hr Hd Hid).
Defined.

Lemma cleanup_data_undoes_process_data_witness :
  let w := run repr_elided two_repositories in
  let content : gmap string value :=
    <["id" := VStr "product_001"]> (<["name" := VStr "Laptop"]> ∅) in
  let service := {| repository := 1%positive |} in
  repos w !! 1%positive
  = Some (DatabaseRepository "jdbc:mysql://localhost:3306/mydb" 1%positive)
  ∧ dicts w !! 1%positive = Some content
  ∧ content !! "id" = Some (VStr "product_001")
  ∧ (load 1%positive (VStr "product_001")
       (cleanup_data service (VStr "product_001")
          (process_data repr_elided service 1%positive w).2).2).1
    = Return (New (default_record (VStr "product_001") "Data from database")).
Proof.
  intros w content service.
  assert (repos w !! repository service
          = Some (DatabaseRepository "jdbc:mysql://localhost:3306/mydb" 1%positive))
    as Hr by (vm_compute; reflexivity).
  assert (dicts w !! 1%positive = Some content) as Hd
    by (vm_compute; reflexivity).
  assert (content !! "id" = Some (VStr "product_001")) as Hid
    by (vm_compute; reflexivity).
  repeat (split; [done|]).
  apply (cleanup_data_undoes_process_data repr_elided two_repositories
           service _ 1%positive content _ Hr Hd Hid).
Defined.


End DIP_more.

(** ** srp_example.py: reports and users *)

Section SRP_more.
Import Py SRP SRPReports.


(** The refactoring kept the HTML report: with the format ['html'],
    [ReportService.process_report] returns what [BadReport.format_to_html]
    returns for the same data. *)
Theorem html_report_is_the_one_of_BadReport :
  ∀ (json_string : string → string) (open_error : string → option string)
    (data filename : string) (s : disk),
    (process_report json_string open_error data filename "html" s).1
    = Return (BadReport_format_to_html {| SRPReports.data := data |}).
Proof.
  intros json_string open_error data filename s.
  unfold process_report, save_to_file.
  destruct (open_error filename); reflexivity.
Qed.



Lemma register_user_run (md5_hexdigest : string → string)
    (username email password : string) (s : state) :
  let user := {| SRP.username := username; SRP.email := email;
                 SRP.password := md5_hexdigest password |} in
  users (register_user md5_hexdigest username email password s).2
  = users s ++ (if is_valid email then [user] else []).
Proof.
  cbn zeta. unfold register_user, try_except, validate_format.
  destruct (is_valid email); cbn; [done|]. by rewrite app_nil_r.
Qed.




End SRP_more.

(** ** lsp_example.py: resizing, birds and vehicles *)

Section LSP_more.
Import Py PyClass LSP LSPShapes LSPClasses.

(** [resize_rectangle] does not do the same to a Square as to a
    Rectangle.  It never raises; a Rectangle ends with the new width and
    the new height and the area [new_width * new_height]; a Square ends
    with both sides equal to [new_height], so its area is
    [new_height * new_height] whatever [new_width] was.  The last line
    printed is the area of the result. *)
Theorem resize_rectangle_on_a_Square_ignores_the_width :
  ∀ (format_2f : Q → string) (rectangle : instance) (new_width new_height : Q)
    (out : list string),
    ∃ resized out',
      resize_rectangle format_2f rectangle new_width new_height out
      = (Return resized,
         out' ++ ["  Área nueva: " +:+ format_2f (calculate_area resized)])
      ∧ class_ resized = class_ rectangle
      ∧ _height resized = new_height
      ∧ match class_ rectangle with
        | Rectangle =>
            _width resized = new_width
            ∧ calculate_area resized = (new_width * new_height)%Q
        | Square =>
            _width resized = new_height
            ∧ calculate_area resized = (new_height * new_height)%Q
        end.
Proof.
  intros format_2f rectangle new_width new_height out.
  exists (set_height (set_width rectangle new_width) new_height),
    ((out ++ ["Redimensionando " +:+ get_color rectangle +:+ " rectangle:"])
     ++ ["  Área original: " +:+ format_2f (calculate_area rectangle)]).
  split; [reflexivity|].
  destruct rectangle as [[] c w h]; done.
Qed.

(** Every bird of [main] gets through the loops of [main]: each of the
    four classes can be instantiated, and feeding it, its sound, the
    exercises its capabilities select and putting it to sleep all return
    without raising.  The capability checks match the methods:
    [isinstance(bird, Flyable)] holds exactly when [bird.fly()] returns,
    and [isinstance(bird, Swimmable)] exactly when [bird.swim()] does;
    otherwise the method does not exist. *)
Theorem every_bird_can_be_cared_for :
  ∀ out : list string,
    Forall (λ '(cls, name),
              let bird := instance_with cls "name" (VStr name) in
              instantiate cls [] out = (Return bird, out)
              ∧ succeeds care_for_bird (out, bird)
              ∧ succeeds put_bird_to_sleep (out, bird)
              ∧ isinstance bird Flyable
                = is_return (call "fly" [] (out, bird)).1
              ∧ isinstance bird Swimmable
                = is_return (call "swim" [] (out, bird)).1)
           birds.
Proof.
  intros out. unfold birds.
  repeat apply List.Forall_cons; [..|apply List.Forall_nil];
    (split; [|split; [|split; [|split]]]); vm_compute; reflexivity.
Qed.

(** The vehicles that respect LSP.  A [Car] and a [Bicycle] of any brand
    can be instantiated and each method they define returns.  A
    [Bicycle] is not a [MotorVehicle] and has no [start_engine] at all:
    the call raises [AttributeError], not [NotImplementedError].  The
    three abstract classes cannot be instantiated. *)
Theorem a_Bicycle_has_no_engine_to_start :
  ∀ (brand : value) (out : list string),
    let car := instance_with Car "brand" brand in
    let bicycle := instance_with Bicycle "brand" brand in
    instantiate Car [brand] out = (Return car, out)
    ∧ isinstance car MotorVehicle = true
    ∧ Forall (λ method, succeeds (call method []) (out, car))
        ["move"; "stop"; "start_engine"; "stop_engine"]
    ∧ instantiate Bicycle [brand] out = (Return bicycle, out)
    ∧ isinstance bicycle MotorVehicle = false
    ∧ (call "start_engine" [] (out, bicycle)).1
      = Raise (Exception AttributeError "start_engine")
    ∧ Forall (λ method, succeeds (call method []) (out, bicycle))
        ["move"; "stop"; "pedal"]
    ∧ Forall (λ cls, raises (instantiate cls [brand]) out TypeError)
        [Vehicle; MotorVehicle; ManualVehicle].
Proof.
  intros brand out car bicycle.
  repeat (split; [vm_compute; reflexivity|]).
  split; [repeat apply List.Forall_cons; [..|apply List.Forall_nil];
          vm_compute; reflexivity|].
  repeat (split; [vm_compute; reflexivity|]).
  split; [repeat apply List.Forall_cons; [..|apply List.Forall_nil];
          vm_compute; reflexivity|].
  repeat apply List.Forall_cons; [..|apply List.Forall_nil];
    eexists; vm_compute; reflexivity.
Qed.

End LSP_more.

(** ** ocp_example.py: calculators and payments *)

Section OCP_more.
Import Py OCP OCPBad.

(** [BadAreaCalculator] knows two classes only.  On a [Rectangle] and a
    [Circle] it returns what [GoodAreaCalculator] returns on the
    [GoodRectangle] and the [GoodCircle] of the same size; on an object
    of any [Shape] class — a [Triangle], but also a [GoodRectangle] — it
    returns 0 instead of the area, and never raises. *)
Theorem BadAreaCalculator_returns_0_for_every_Shape :
  (∀ width height : Q,
     BadAreaCalculator_calculate_area (Rectangle width height)
     = GoodAreaCalculator_calculate_area (new_GoodRectangle width height))
  ∧ (∀ radius : Q,
       BadAreaCalculator_calculate_area (Circle radius)
       = GoodAreaCalculator_calculate_area (new_GoodCircle radius))
  ∧ (∀ (T : Type) (shape_class : Shape T) (shape : T),
       BadAreaCalculator_calculate_area (Other (Object shape)) = 0%Q)
  ∧ (GoodAreaCalculator_calculate_area (new_Triangle 6 8) == 24)%Q.
Proof. repeat split. Qed.

(** The transaction id is computed from the entry the processor reads
    and from nothing else: two payments whose details agree on that
    entry (the card number, the email, the wallet, the account) get the
    same result, whatever the amounts and the other details.  Ids are
    not unique per payment. *)
Theorem payments_with_the_same_entry_share_the_transaction_id :
  ∀ (builtins : Builtins) (p : processor) (amount1 amount2 : Q)
    (details1 details2 : gmap string string) (out1 out2 : list string),
    entry_read p details1 = entry_read p details2 →
    (run_processor p amount1 details1 out1).1
    = (run_processor p amount2 details2 out2).1.
Proof.
  intros builtins p amount1 amount2 details1 details2 out1 out2 Hentry.
  destruct p; cbn in *; by rewrite Hentry.
Qed.

(** The number in a transaction id lies between 0 and 9999, also when
    [hash] is negative: it is the prefix of the processor followed by
    [hash(entry) % 10000]. *)
Theorem transaction_id_number_is_below_10000 :
  ∀ (builtins : Builtins) (p : processor) (amount : Q)
    (details : gmap string string) (out : list string),
    ∃ (result : gmap string value) (n : Z),
      (run_processor p amount details out).1 = Return result
      ∧ result !! "transaction_id" = Some (VStr (prefix p +:+ pretty n))
      ∧ (0 ≤ n < 10000)%Z
      ∧ n = (hash (entry_read p details) `mod` 10000)%Z.
Proof.
  intros builtins p amount details out.
  destruct p; (eexists _, _; split; [reflexivity|]; split; [reflexivity|];
               split; [by apply Z.mod_pos_bound | reflexivity]).
Qed.


(** A processor that reports a failure: when the result has a
    ['status'] other than ['success'], [process_order_payment] does not
    raise; it prints the error of the result — ['Error desconocido']
    when the result has no ['error'] — and returns the result. *)
Theorem order_payment_reports_a_failed_payment :
  ∀ (T : Type) (processor_class : PaymentProcessor T) (processor : T)
    (amount : Q) (details : gmap string string) (out out' : list string)
    (result : gmap string value) (status : value),
    process_payment processor amount details
      (out ++ [nl +:+ "💰 Procesando pago con " +:+ get_processor_name processor])
    = (Return result, out') →
    result !! "status" = Some status → status ≠ VStr "success" →
    process_order_payment amount processor details out
    = (Return result,
       out' ++ ["❌ Error en el pago: "
                +:+ str (dict_get result "error" (VStr "Error desconocido"))]).
Proof.
  intros T processor_class processor amount details out out' result status
    Hrun Hstatus Hfail.
  unfold process_order_payment.
  rewrite bind_unfold. cbn [print]. unfold print at 1.
  change (write_line ?l out) with (out ++ [l]).
  rewrite bind_unfold, Hrun.
  rewrite bind_unfold. unfold dict_getitem at 1. rewrite Hstatus.
  cbn [mret M_ret ret]. rewrite bind_unfold.
  by rewrite decide_False by done.
Qed.

(** A result without ['status'] is not handled: [result["status"]]
    raises [KeyError] after the processor has run. *)
Theorem order_payment_needs_a_status :
  ∀ (T : Type) (processor_class : PaymentProcessor T) (processor : T)
    (amount : Q) (details : gmap string string) (out out' : list string)
    (result : gmap string value),
    process_payment processor amount details
      (out ++ [nl +:+ "💰 Procesando pago con " +:+ get_processor_name processor])
    = (Return result, out') →
    result !! "status" = None →
    process_order_payment amount processor details out
    = (Raise (Exception KeyError "status"), out').
Proof.
  intros T processor_class processor amount details out out' result
    Hrun Hstatus.
  unfold process_order_payment.
  rewrite bind_unfold. cbn [print]. unfold print at 1.
  change (write_line ?l out) with (out ++ [l]).
  rewrite bind_unfold, Hrun.
  rewrite bind_unfold. unfold dict_getitem at 1. by rewrite Hstatus.
Qed.

Lemma payments_with_the_same_entry_share_the_transaction_id_witness :
  let details1 : gmap string string := {[ "card_number" := "1234567890123456" ]} in
  let details2 : gmap string string :=
    <["card_number" := "1234567890123456"]> {[ "email" := "ana@ejemplo.com" ]} in
  entry_read CreditCard details1 = entry_read CreditCard details2
  ∧ (@run_processor sample_builtins CreditCard 250 details1 []).1
    = (@run_processor sample_builtins CreditCard 10 details2 ["otra línea"]).1.
Proof.
  intros details1 details2.
  assert (entry_read CreditCard details1 = entry_read CreditCard details2)
    as Hentry by (vm_compute; reflexivity).
  split; [exact Hentry|].
  apply (payments_with_the_same_entry_share_the_transaction_id sample_builtins
           CreditCard 250 10 details1 details2 [] ["otra línea"] Hentry).
Defined.

Lemma order_payment_reports_a_failed_payment_witness :
  let result : gmap string value :=
    <["status" := VStr "failed"]> (<["error" := VStr "Fondos insuficientes"]> ∅) in
  let header := nl +:+ "💰 Procesando pago con Rechazo" in
  process_payment new_DecliningProcessor 250 ∅ ([] ++ [header])
  = (Return result, [header])
  ∧ result !! "status" = Some (VStr "failed")
  ∧ VStr "failed" ≠ VStr "success"
  ∧ process_order_payment 250 new_DecliningProcessor ∅ []
    = (Return result,
       [header] ++ ["❌ Error en el pago: Fondos insuficientes"]).
Proof.
  intros result header.
  assert (process_payment new_DecliningProcessor 250 ∅ ([] ++ [header])
          = (Return result, [header])) as Hrun by reflexivity.
  assert (result !! "status" = Some (VStr "failed")) as Hstatus
    by (vm_compute; reflexivity).
  assert (VStr "failed" ≠ VStr "success") as Hfail by discriminate.
  split; [exact Hrun|]. split; [exact Hstatus|]. split; [exact Hfail|].
  apply (order_payment_reports_a_failed_payment DecliningProcessor _
           new_DecliningProcessor 250 ∅ [] [header] result (VStr "failed")
           Hrun Hstatus Hfail).
Defined.

Lemma order_payment_needs_a_status_witness :
  let header := nl +:+ "💰 Procesando pago con Vacío" in
  process_payment new_EmptyProcessor 250 ∅ ([] ++ [header])
  = (Return ∅, [header])
  ∧ (∅ : gmap string value) !! "status" = None
  ∧ process_order_payment 250 new_EmptyProcessor ∅ []
    = (Raise (Exception KeyError "status"), [header]).
Proof.
  intros header.
  assert (process_payment new_EmptyProcessor 250 ∅ ([] ++ [header])
          = (Return ∅, [header])) as Hrun by reflexivity.
  assert ((∅ : gmap string value) !! "status" = None) as Hstatus
    by reflexivity.
  split; [exact Hrun|]. split; [exact Hstatus|].
  apply (order_payment_needs_a_status EmptyProcessor _
           new_EmptyProcessor 250 ∅ [] [header] ∅ Hrun Hstatus).
Defined.

End OCP_more.

(** ** isp_example.py: the segregated devices *)

Section ISP_more.
Import Py PyClass ISP ISPDevices LSPClasses.

(** The segregated design keeps its promises.  Each of the four devices
    can be instantiated with a model, and every method its interfaces
    declare returns when called — none is a stub.  Without the model
    the constructor raises [TypeError].  None of the six interfaces can
    be instantiated. *)
Theorem segregated_devices_implement_their_interfaces :
  ∀ (model x : value) (out : list string),
    Forall (λ '(cls, calls),
              let device := instance_with cls "model" model in
              instantiate cls [model] out = (Return device, out)
              ∧ Forall (λ '(method, args),
                          succeeds (call method args) (out, device))
                  calls
              ∧ raises (instantiate cls []) out TypeError)
           (devices x)
    ∧ Forall (λ cls, raises (instantiate cls []) out TypeError) interfaces.
Proof.
  intros model x out. split.
  - unfold devices.
    repeat apply List.Forall_cons; [..|apply List.Forall_nil];
      (split; [vm_compute; reflexivity|]);
      (split; [|eexists; vm_compute; reflexivity]);
      repeat apply List.Forall_cons; try apply List.Forall_nil;
      vm_compute; reflexivity.
  - unfold interfaces.
    repeat apply List.Forall_cons; [..|apply List.Forall_nil];
      eexists; vm_compute; reflexivity.
Qed.

(** [scan_to_email] scans: on a [DocumentScanner] it returns the text
    [scan_document] returns, which names the model, and prints the
    line of the scan before the line of the mail. *)
Theorem scan_to_email_returns_the_scan :
  ∀ (model email : value) (out : list string),
    let scanner := instance_with DocumentScanner "model" model in
    let scanned := VStr ("Documento escaneado por " +:+ str model) in
    call "scan_document" [] (out, scanner)
    = (Return scanned,
       (out ++ ["[" +:+ str model +:+ "] Escaneando documento..."], scanner))
    ∧ call "scan_to_email" [email] (out, scanner)
      = (Return scanned,
         ((out ++ ["[" +:+ str model +:+ "] Escaneando documento..."])
            ++ ["[" +:+ str model +:+ "] Enviando escaneo a: "
                +:+ str email],
          scanner)).
Proof.
  intros model email out scanner scanned.
  split; vm_compute; reflexivity.
Qed.

End ISP_more.
